(** * Stock analyzer: scoring engine, fetch retry loop, history and ranking stores

    A shallow embedding of [stock_analyzer_full.py]:
    - [StockAnalyzer.calculate_comprehensive_score] (the nine-criterion score),
    - [StockAnalyzer.fetch_stock_data] (the bounded retry loop around the
      market-data provider),
    - [load_history], [save_history], [update_monthly_ranking],
      [load_monthly_ranking] (the two JSON-backed stores).

    Python values are modelled as they behave in the interpreter: [int] is an
    unbounded integer, [float] is an IEEE double seen as an extended rational
    (NaN, the two infinities, or an exact rational), comparisons between
    numbers are exact, and an operation that raises in Python returns
    [Raise] here. *)

From Stdlib Require Import ZArith QArith String List Lia.
From stdpp Require Import gmap strings list fin_maps sorting.

Local Open Scope string_scope.
Local Open Scope Z_scope.

(** ** Exceptions *)

Inductive exn := TypeError | ValueError | OverflowError.

Inductive exc (A : Type) :=
| Ok (a : A)
| Raise (e : exn).
Arguments Ok {A} a.
Arguments Raise {A} e.

Global Instance exc_ret : MRet exc := λ A a, Ok a.
Global Instance exc_bind : MBind exc := λ A B f m,
  match m with
  | Ok a => f a
  | Raise e => Raise e
  end.

(** ** Python values held by the [info] mapping

    The values a field can hold: null, an [int], a [float] or a [str].
    Booleans, lists and nested mappings are left out. *)

Inductive pyfloat :=
| FNaN
| FInf (negative : bool)
| FFin (q : Q).

Inductive pyval :=
| VNone
| VInt (z : Z)
| VFloat (f : pyfloat)
| VStr (s : string).

(** The float literals of the source, as the doubles the interpreter reads. *)
Definition f_0_05 : pyfloat := FFin (Qmake 3602879701896397 (2 ^ 56)).
Definition f_0_07 : pyfloat := FFin (Qmake 1261007895663739 (2 ^ 54)).
Definition f_0_40 : pyfloat := FFin (Qmake 3602879701896397 (2 ^ 53)).

Definition Qlt_bool (p q : Q) : bool := negb (Qle_bool q p).

Definition float_ltb (a b : pyfloat) : bool :=
  match a, b with
  | FNaN, _ => false
  | _, FNaN => false
  | FInf true, FInf true => false
  | FInf true, _ => true
  | FInf false, _ => false
  | FFin _, FInf negative => negb negative
  | FFin p, FFin q => Qlt_bool p q
  end.

Definition float_leb (a b : pyfloat) : bool :=
  match a, b with
  | FNaN, _ => false
  | _, FNaN => false
  | FInf true, _ => true
  | FInf false, FInf false => true
  | FInf false, _ => false
  | FFin _, FInf negative => negb negative
  | FFin p, FFin q => Qle_bool p q
  end.

(** A number as an extended rational: an [int] is compared with a [float]
    exactly, not after rounding. *)
Definition number (v : pyval) : option pyfloat :=
  match v with
  | VInt z => Some (FFin (inject_Z z))
  | VFloat f => Some f
  | _ => None
  end.

(** [bool(v)] *)
Definition truthy (v : pyval) : bool :=
  match v with
  | VNone => false
  | VInt z => negb (Z.eqb z 0)
  | VFloat FNaN => true
  | VFloat (FInf _) => true
  | VFloat (FFin q) => negb (Qeq_bool q 0)
  | VStr s => negb (String.eqb s "")
  end.

(** [a < b], [a <= b], [a > b]: numbers compare with numbers, strings with
    strings, anything else raises [TypeError]. *)
Definition py_lt (a b : pyval) : exc bool :=
  match a, b with
  | VStr s, VStr t => Ok (String.ltb s t)
  | _, _ =>
    match number a, number b with
    | Some x, Some y => Ok (float_ltb x y)
    | _, _ => Raise TypeError
    end
  end.

Definition py_le (a b : pyval) : exc bool :=
  match a, b with
  | VStr s, VStr t => Ok (String.leb s t)
  | _, _ =>
    match number a, number b with
    | Some x, Some y => Ok (float_leb x y)
    | _, _ => Raise TypeError
    end
  end.

Definition py_gt (a b : pyval) : exc bool := py_lt b a.

(** [a and <test>] used as a condition: the test is evaluated only when [a]
    is truthy. *)
Definition and_then (a : pyval) (test : exc bool) : exc bool :=
  if truthy a then test else Ok false.

(** [v is not None] *)
Definition is_not_None (v : pyval) : bool :=
  match v with
  | VNone => false
  | _ => true
  end.

(** ** Rendering

    [float(z)] for an [int] raises [OverflowError] once [z] rounds past the
    largest double. *)
Definition float_max_bound : Z := 2 ^ 1024 - 2 ^ 970.

Definition int_fits_float (z : Z) : bool := Z.ltb (Z.abs z) float_max_bound.

(** The f-strings of the source.  The digits are not computed: a rendered
    value records which format was applied to which number.  What is modelled
    is whether evaluating the f-string raises. *)
Inductive fvalue :=
| NA                               (* 'N/A' *)
| Percent1 (v : pyval)             (* f'{v*100:.1f}%' *)
| Fixed2 (v : pyval)               (* f'{v:.2f}' *)
| Fixed2Arrow (v w : pyval)        (* f'{v:.2f} → {w:.2f}' *)
| Billions1 (v : pyval)            (* f'{v/1e9:.1f}B' *)
| DebtEquity1 (v : pyval)          (* f'D/E: {v:.1f}' *)
| Yen2 (v : pyval).                (* f'{v:.2f}円' *)

(** [format(v, '.Nf')] *)
Definition format_f (v : pyval) : exc unit :=
  match v with
  | VNone => Raise TypeError
  | VInt z => if int_fits_float z then Ok tt else Raise OverflowError
  | VFloat _ => Ok tt
  | VStr _ => Raise ValueError
  end.

(** [format(v*100, '.1f')]: an [int] stays an [int] under [*100], a float
    product saturates to an infinity without raising, a string is repeated. *)
Definition format_times100 (v : pyval) : exc unit :=
  match v with
  | VNone => Raise TypeError
  | VInt z => format_f (VInt (z * 100))
  | VFloat _ => Ok tt
  | VStr _ => Raise ValueError
  end.

(** [format(v/1e9, '.1f')]: the division converts an [int] to a float. *)
Definition format_div1e9 (v : pyval) : exc unit :=
  match v with
  | VInt z => if int_fits_float z then Ok tt else Raise OverflowError
  | VFloat _ => Ok tt
  | _ => Raise TypeError
  end.

Definition render_percent1 (v : pyval) : exc fvalue :=
  _ ← format_times100 v; Ok (Percent1 v).
Definition render_fixed2 (v : pyval) : exc fvalue :=
  _ ← format_f v; Ok (Fixed2 v).
Definition render_fixed2_arrow (v w : pyval) : exc fvalue :=
  _ ← format_f v; _ ← format_f w; Ok (Fixed2Arrow v w).
Definition render_billions1 (v : pyval) : exc fvalue :=
  _ ← format_div1e9 v; Ok (Billions1 v).
Definition render_debt_equity1 (v : pyval) : exc fvalue :=
  _ ← format_f v; Ok (DebtEquity1 v).
Definition render_yen2 (v : pyval) : exc fvalue :=
  _ ← format_f v; Ok (Yen2 v).

(** ** Score details *)

Definition status_pass : string := "✅ 合格".
Definition status_partial : string := "△ 要改善".
Definition status_fail : string := "❌ 不合格".

Record item := Item {
  item_score : Z;
  item_status : string;
  item_value : fvalue
}.

(** A value of the [score_details] dict: a criterion item, or the text of
    the fallback note. *)
Inductive detail :=
| Criterion (it : item)
| Note (text : string).

(** [item['score']]: indexing the note string with a string key raises. *)
Definition detail_score (d : detail) : exc Z :=
  match d with
  | Criterion it => Ok (item_score it)
  | Note _ => Raise TypeError
  end.

Definition passed (v : fvalue) (points : Z) : item := Item points status_pass v.
Definition partial (v : fvalue) (points : Z) : item := Item points status_partial v.
Definition failed : item := Item 0 status_fail NA.

(** ** The info mapping and the fetched bundle *)

Record bar := Bar {
  bar_date : string;
  bar_open : Q;
  bar_high : Q;
  bar_low : Q;
  bar_close : Q
}.

Record stock_data := StockData {
  data_company_name : pyval;
  data_info : option (gmap string pyval);
  data_history : list bar
}.

(** [info.get(key, None)] *)
Definition info_get (info : gmap string pyval) (key : string) : pyval :=
  default VNone (info !! key).

(** ** The nine criteria of [calculate_comprehensive_score] *)

Definition score_revenue (info : gmap string pyval) : exc item :=
  let revenue_growth := info_get info "revenueGrowth" in
  c ← and_then revenue_growth (py_gt revenue_growth (VFloat f_0_05));
  if c : bool then v ← render_percent1 revenue_growth; Ok (passed v 15)
  else
    c ← and_then revenue_growth (py_gt revenue_growth (VInt 0));
    if c : bool then v ← render_percent1 revenue_growth; Ok (partial v 8)
    else Ok failed.

Definition score_eps (info : gmap string pyval) : exc item :=
  let eps := info_get info "trailingEps" in
  let eps_forward := info_get info "forwardEps" in
  c ← and_then eps (and_then eps_forward (py_gt eps_forward eps));
  if c : bool then v ← render_fixed2_arrow eps eps_forward; Ok (passed v 15)
  else
    c ← and_then eps (py_gt eps (VInt 0));
    if c : bool then v ← render_fixed2 eps; Ok (partial v 8)
    else Ok failed.

Definition score_positive (info : gmap string pyval) (key : string)
    (render : pyval → exc fvalue) : exc item :=
  let x := info_get info key in
  c ← and_then x (py_gt x (VInt 0));
  if c : bool then v ← render x; Ok (passed v 10)
  else Ok failed.

Definition score_assets (info : gmap string pyval) : exc item :=
  score_positive info "totalAssets" render_billions1.

Definition score_operating_cf (info : gmap string pyval) : exc item :=
  score_positive info "operatingCashflow" render_billions1.

Definition score_cash (info : gmap string pyval) : exc item :=
  score_positive info "totalCash" render_billions1.

Definition score_roe (info : gmap string pyval) : exc item :=
  let roe := info_get info "returnOnEquity" in
  c ← and_then roe (py_gt roe (VFloat f_0_07));
  if c : bool then v ← render_percent1 roe; Ok (passed v 10)
  else
    c ← and_then roe (py_gt roe (VInt 0));
    if c : bool then v ← render_percent1 roe; Ok (partial v 5)
    else Ok failed.

Definition score_equity_ratio (info : gmap string pyval) : exc item :=
  let debt_to_equity := info_get info "debtToEquity" in
  c ← (if is_not_None debt_to_equity then py_lt debt_to_equity (VInt 100)
       else Ok false);
  if c : bool then v ← render_debt_equity1 debt_to_equity; Ok (passed v 10)
  else if is_not_None debt_to_equity
  then v ← render_debt_equity1 debt_to_equity; Ok (partial v 5)
  else Ok failed.

Definition score_dividend (info : gmap string pyval) : exc item :=
  score_positive info "dividendRate" render_yen2.

Definition score_payout_ratio (info : gmap string pyval) : exc item :=
  let payout_ratio := info_get info "payoutRatio" in
  c ← and_then payout_ratio (py_le payout_ratio (VFloat f_0_40));
  if c : bool then v ← render_percent1 payout_ratio; Ok (passed v 10)
  else if truthy payout_ratio
  then v ← render_percent1 payout_ratio; Ok (partial v 5)
  else Ok failed.

(** [sum(item['score'] for item in score_details.values())] *)
Fixpoint sum_scores (details : list (string * detail)) : exc Z :=
  match details with
  | [] => Ok 0
  | (_, d) :: rest => s ← detail_score d; t ← sum_scores rest; Ok (s + t)
  end.

Definition fallback_note : string :=
  "企業情報が取得できないため、標準スコアを表示".

Definition score_info (info : gmap string pyval)
    : exc (Z * list (string * detail)) :=
  revenue ← score_revenue info;
  eps ← score_eps info;
  assets ← score_assets info;
  operating_cf ← score_operating_cf info;
  cash ← score_cash info;
  roe ← score_roe info;
  equity_ratio ← score_equity_ratio info;
  dividend ← score_dividend info;
  payout_ratio ← score_payout_ratio info;
  let score_details :=
    [("revenue", Criterion revenue);
     ("eps", Criterion eps);
     ("assets", Criterion assets);
     ("operating_cf", Criterion operating_cf);
     ("cash", Criterion cash);
     ("roe", Criterion roe);
     ("equity_ratio", Criterion equity_ratio);
     ("dividend", Criterion dividend);
     ("payout_ratio", Criterion payout_ratio)] in
  total_score ← sum_scores score_details;
  Ok (total_score, score_details).

(** [data] is [None] when the fetch failed, else the fetched bundle; its
    ['info'] is absent, null, or a mapping. *)
Definition calculate_comprehensive_score (data : option stock_data)
    : exc (Z * list (string * detail)) :=
  match data with
  | None => Ok (50, [("note", Note fallback_note)])
  | Some d =>
    match data_info d with
    | None => Ok (50, [("note", Note fallback_note)])
    | Some info =>
      if decide (info = ∅) then Ok (50, [("note", Note fallback_note)])
      else score_info info
    end
  end.

(** ** The market-data provider and [fetch_stock_data]

    The provider is an oracle: what [stock.history(period="max")] and
    [stock.info] do on the attempt of a given index.  The calls made, the
    sleeps and the messages shown are recorded in a log. *)

Inductive history_reply :=
| HistoryRaises (error_msg : string)
| HistoryReturns (hist : list bar).

Inductive info_reply :=
| InfoRaises
| InfoReturns (info : gmap string pyval).

Record provider := Provider {
  reply_history : nat → history_reply;
  reply_info : nat → info_reply
}.

Inductive notice :=
| NotFound (stock_code : string)
| RateLimitWait (wait_time attempt_no out_of : nat)
| RateLimited.

Inductive event :=
| Sleep (seconds : nat)
| QueryHistory (ticker : string)
| QueryInfo (ticker : string)
| StError (n : notice)
| StWarning (n : notice).

Definition max_retries : nat := 3.
Definition retry_delay : nat := 2.

(** [needle in hay] *)
Fixpoint contains (needle hay : string) : bool :=
  String.prefix needle hay ||
  match hay with
  | EmptyString => false
  | String _ rest => contains needle rest
  end.

Definition is_rate_limit (error_msg : string) : bool :=
  contains "Too Many Requests" error_msg || contains "Rate limit" error_msg.

Definition synthetic_name (stock_code : string) : pyval :=
  VStr ("銘柄" ++ stock_code).

(** [info.get('longName', info.get('shortName', f'銘柄{stock_code}'))] *)
Definition resolve_name (info : gmap string pyval) (stock_code : string) : pyval :=
  default (default (synthetic_name stock_code) (info !! "shortName"))
          (info !! "longName").

Inductive outcome (A : Type) :=
| Return (r : A)
| Continue.
Arguments Return {A} r.
Arguments Continue {A}.

(** One pass through the body of the [for attempt in range(max_retries)]
    loop. *)
Definition fetch_attempt (p : provider) (stock_code : string) (attempt : nat)
    : outcome (option stock_data) * list event :=
  let ticker := stock_code ++ ".T" in
  match reply_history p attempt with
  | HistoryReturns hist =>
    match hist with
    | [] => (Return None,
             [Sleep 1; QueryHistory ticker; StError (NotFound stock_code)])
    | _ :: _ =>
      let '(company_name, info) :=
        match reply_info p attempt with
        | InfoReturns info => (resolve_name info stock_code, info)
        | InfoRaises => (synthetic_name stock_code, ∅)
        end in
      (Return (Some (StockData company_name (Some info) hist)),
       [Sleep 1; QueryHistory ticker; Sleep 1; QueryInfo ticker])
    end
  | HistoryRaises error_msg =>
    if is_rate_limit error_msg then
      if (attempt <? max_retries - 1)%nat then
        let wait_time := (retry_delay * (attempt + 1))%nat in
        (Continue,
         [Sleep 1; QueryHistory ticker;
          StWarning (RateLimitWait wait_time (attempt + 1) max_retries);
          Sleep wait_time])
      else
        (Return None, [Sleep 1; QueryHistory ticker; StError RateLimited])
    else
      if (attempt <? max_retries - 1)%nat then
        (Continue, [Sleep 1; QueryHistory ticker; Sleep retry_delay])
      else
        (Return None, [Sleep 1; QueryHistory ticker])
  end.

Fixpoint fetch_loop (p : provider) (stock_code : string) (attempts : list nat)
    : option stock_data * list event :=
  match attempts with
  | [] => (None, [])
  | attempt :: rest =>
    match fetch_attempt p stock_code attempt with
    | (Return r, log) => (r, log)
    | (Continue, log) =>
      let '(r, log') := fetch_loop p stock_code rest in (r, (log ++ log')%list)
    end
  end.

Definition fetch_stock_data (p : provider) (stock_code : string)
    : option stock_data * list event :=
  fetch_loop p stock_code (seq 0 max_retries).

(** What the log says about one fetch. *)
Definition is_query (e : event) : bool :=
  match e with
  | QueryHistory _ => true
  | _ => false
  end.

Definition attempts_made (log : list event) : nat :=
  length (List.filter is_query log).

(** ** The history and ranking stores *)

Record entry := Entry {
  stock_code : string;
  company_name : pyval;
  score : Z;
  score_details : list (string * detail);
  date : string
}.

(** The two JSON files under [data/]; [None] when the file does not exist. *)
Record files := Files {
  HISTORY_FILE : option (list entry);
  RANKING_FILE : option (gmap string (list entry))
}.

Definition load_history (fs : files) : list entry :=
  default [] (HISTORY_FILE fs).

(** [l[-n:]] *)
Definition last_n {A} (n : nat) (l : list A) : list A :=
  drop (length l - n) l.

(** [l.sort(key=lambda x: x['score'], reverse=True)]: a stable sort, so
    entries of equal score keep their order. *)
Fixpoint insert_by_score (x : entry) (l : list entry) : list entry :=
  match l with
  | [] => [x]
  | y :: rest =>
    if score x <? score y then y :: insert_by_score x rest
    else x :: y :: rest
  end.

Fixpoint sort_by_score_desc (l : list entry) : list entry :=
  match l with
  | [] => []
  | x :: rest => insert_by_score x (sort_by_score_desc rest)
  end.

(** [current_month] is the reading of the clock taken inside the call. *)
Definition update_monthly_ranking (e : entry) (current_month : string)
    (fs : files) : files :=
  let rankings := default ∅ (RANKING_FILE fs) in
  let rankings :=
    match rankings !! current_month with
    | None => <[current_month := []]> rankings
    | Some _ => rankings
    end in
  let kept :=
    filter (λ r, stock_code r ≠ stock_code e)
           (default [] (rankings !! current_month)) in
  let rankings := <[current_month := kept]> rankings in
  let rankings := <[current_month := (kept ++ [e])%list]> rankings in
  let rankings :=
    <[current_month := sort_by_score_desc
                         (default [] (rankings !! current_month))]> rankings in
  Files (HISTORY_FILE fs) (Some rankings).

(** [now] and [current_month] are the two readings of the clock. *)
Definition save_history (stock_code : string) (company_name : pyval)
    (score : Z) (score_details : list (string * detail))
    (now current_month : string) (fs : files) : files :=
  let history := load_history fs in
  let e := Entry stock_code company_name score score_details now in
  let history := (history ++ [e])%list in
  let history := last_n 100 history in
  let fs := Files (Some history) (RANKING_FILE fs) in
  update_monthly_ranking e current_month fs.

Definition load_monthly_ranking (current_month : string) (fs : files)
    : list entry :=
  match RANKING_FILE fs with
  | Some rankings => default [] (rankings !! current_month)
  | None => []
  end.

(** ** Vocabulary of the statements *)

(** The fields the engine reads, each with the factor applied to it before
    it is rendered ([*100] for the percentages). *)
Definition scored_fields : list (string * Z) :=
  [("revenueGrowth", 100); ("trailingEps", 1); ("forwardEps", 1);
   ("totalAssets", 1); ("operatingCashflow", 1); ("totalCash", 1);
   ("returnOnEquity", 100); ("debtToEquity", 1); ("dividendRate", 1);
   ("payoutRatio", 100)].

(** The criteria in the order they are scored, with their weights. *)
Definition criteria : list string :=
  ["revenue"; "eps"; "assets"; "operating_cf"; "cash"; "roe";
   "equity_ratio"; "dividend"; "payout_ratio"].

Definition weights : list Z := [15; 15; 10; 10; 10; 10; 10; 10; 10].


(** A field is numeric or null. *)
Definition numeric_or_null (v : pyval) : bool :=
  match v with
  | VStr _ => false
  | _ => true
  end.

(** A field is null, a float, or an [int] that [float()] accepts once
    scaled. *)
Definition field_ok (scale : Z) (v : pyval) : bool :=
  match v with
  | VNone => true
  | VInt z => int_fits_float (z * scale)
  | VFloat _ => true
  | VStr _ => false
  end.

Definition renderable (info : gmap string pyval) : Prop :=
  forallb (λ '(key, scale), field_ok scale (info_get info key))
          scored_fields = true.


(** [score_details.get(key)] *)
Fixpoint breakdown_get (key : string) (details : list (string * detail))
    : option detail :=
  match details with
  | [] => None
  | (k, d) :: rest =>
    if String.eqb k key then Some d else breakdown_get key rest
  end.

Definition bundle (info : gmap string pyval) : option stock_data :=
  Some (StockData VNone (Some info) []).

(** [r] returns the item [it], worth at most [w] points, and the FAIL item
    when the field was [absent]. *)
Definition yields (w : Z) (absent : bool) (r : exc item) (it : item) : Prop :=
  r = Ok it ∧ 0 ≤ item_score it ≤ w ∧ (absent = true → it = failed).

Definition spec_scenario : gmap string pyval :=
  <["revenueGrowth" := VFloat (FFin (Qmake 1 10))]>
  (<["trailingEps" := VFloat (FFin (Qmake 2 1))]>
  (<["forwardEps" := VFloat (FFin (Qmake 5 2))]>
  (<["totalAssets" := VFloat (FFin (Qmake 5000000000 1))]>
  (<["operatingCashflow" := VFloat (FFin (Qmake 1000000000 1))]>
  (<["totalCash" := VFloat (FFin (Qmake 2000000000 1))]>
  (<["returnOnEquity" := VFloat (FFin (Qmake 9 100))]>
  (<["debtToEquity" := VInt 80]>
  (<["dividendRate" := VInt 30]>
  (<["payoutRatio" := VFloat (FFin (Qmake 35 100))]> ∅))))))))).

Definition huge_assets : gmap string pyval :=
  {["totalAssets" := VInt (2 ^ 1024)]}.


Definition low_payout : gmap string pyval :=
  {["payoutRatio" := VFloat (FFin (Qmake 35 100))]}.





(** The info mapping that is scored, if any. *)
Definition scored_info (data : option stock_data)
    : option (gmap string pyval) :=
  match data with
  | None => None
  | Some d =>
    match data_info d with
    | None => None
    | Some info => if decide (info = ∅) then None else Some info
    end
  end.


(** A provider whose history query fails every time with an error that is
    not a rate limit. *)
Definition always_failing : provider :=
  Provider (λ _, HistoryRaises "Connection reset by peer") (λ _, InfoRaises).

(** A provider that knows no price history for the ticker. *)
Definition unknown_ticker : provider :=
  Provider (λ _, HistoryReturns []) (λ _, InfoRaises).

(** One completed analysis: the arguments of a call of [save_history] and
    the two readings of the clock taken during it. *)
Record analysis := Analysis {
  an_stock_code : string;
  an_company_name : pyval;
  an_score : Z;
  an_score_details : list (string * detail);
  an_now : string;
  an_month : string
}.

Definition entry_of (a : analysis) : entry :=
  Entry (an_stock_code a) (an_company_name a) (an_score a)
        (an_score_details a) (an_now a).

Definition save (fs : files) (a : analysis) : files :=
  save_history (an_stock_code a) (an_company_name a) (an_score a)
               (an_score_details a) (an_now a) (an_month a) fs.

(** The analyses of a session, saved one after the other. *)
Definition save_all (fs : files) (session : list analysis) : files :=
  foldl save fs session.

(** A sequence of ranking updates, each with the month read at the call. *)
Definition update_all (fs : files) (updates : list (entry * string)) : files :=
  foldl (λ fs '(e, month), update_monthly_ranking e month fs) fs updates.

(** The persisted ranking mapping, empty when there is no file. *)
Definition rankings_of (fs : files) : gmap string (list entry) :=
  default ∅ (RANKING_FILE fs).

Definition by_score_desc (a b : entry) : Prop := score b ≤ score a.

(** The [i]-th of a run of sequential records. *)
Definition sequential (i : nat) : analysis :=
  Analysis "7203" (VStr "Toyota") (Z.of_nat i) [] "2024-05-01 09:00:00"
           "2024-05".

Definition may_entry (code : string) (points : Z) : entry :=
  Entry code (VStr code) points [] "2024-05-01 09:00:00".

Definition may_rankings : gmap string (list entry) :=
  <["2024-04" := [may_entry "7203" 70; may_entry "6758" 40]]>
  (<["2024-05" := [may_entry "9984" 55]]> ∅).

(** A provider that is rate-limited on the first two attempts and answers
    on the third. *)
Definition one_bar : list bar :=
  [Bar "2024-05-01" (Qmake 100 1) (Qmake 110 1) (Qmake 95 1) (Qmake 105 1)].

Definition throttled_twice : provider :=
  Provider (λ attempt, if (attempt <? 2)%nat
                       then HistoryRaises "429 Too Many Requests"
                       else HistoryReturns one_bar)
           (λ _, InfoReturns {["longName" := VStr "Toyota Motor"]}).

Definition always_throttled : provider :=
  Provider (λ _, HistoryRaises "Rate limit exceeded") (λ _, InfoRaises).

Definition growth (percent : Z) : gmap string pyval :=
  {["revenueGrowth" := VFloat (FFin (Qmake percent 100))]}.

(** ** The page: gauge, pie chart, cards and header metrics *)

(** The colour of the bar of [create_score_gauge]. *)
Definition gauge_color (score : Z) : string :=
  if score <? 40 then "#ff4444"
  else if score <? 60 then "#ffaa00"
  else "#00cc66".

(** The value of the red threshold line of the gauge. *)
Definition gauge_threshold : Z := 80.

(** The comment shown under the charts: which of [st.success], [st.info],
    [st.warning], [st.error] is called. *)
Inductive verdict := Excellent | Good | Fair | Caution.

Definition verdict_of (score : Z) : verdict :=
  if 80 <=? score then Excellent
  else if 60 <=? score then Good
  else if 40 <=? score then Fair
  else Caution.

Definition criteria_names : gmap string string :=
  list_to_map
    [("revenue", "経常収益"); ("eps", "EPS"); ("assets", "総資産");
     ("operating_cf", "営業CF"); ("cash", "現金等"); ("roe", "ROE");
     ("equity_ratio", "自己資本比率"); ("dividend", "1株配当");
     ("payout_ratio", "配当性向")].

Definition color_map : gmap string string :=
  list_to_map
    [("revenue", "#FF6B6B"); ("eps", "#4ECDC4"); ("assets", "#45B7D1");
     ("operating_cf", "#FFA07A"); ("cash", "#98D8C8"); ("roe", "#F7DC6F");
     ("equity_ratio", "#BB8FCE"); ("dividend", "#85C1E2");
     ("payout_ratio", "#F8B739")].

(** The three lists handed to [go.Pie]. *)
Record pie := Pie {
  pie_labels : list string;
  pie_values : list Z;
  pie_colors : list string
}.

(** The loop of [create_score_pie_chart] over [score_details.items()]. *)
Fixpoint create_score_pie_chart (score_details : list (string * detail))
    : exc pie :=
  match score_details with
  | [] => Ok (Pie [] [] [])
  | (key, d) :: rest =>
    if String.eqb key "note" then create_score_pie_chart rest
    else
      value ← detail_score d;
      chart ← create_score_pie_chart rest;
      Ok (Pie (default key (criteria_names !! key) :: pie_labels chart)
              (value :: pie_values chart)
              (default "#CCCCCC" (color_map !! key) :: pie_colors chart))
  end.

(** [criteria_info]: display name, criterion text and maximum per key. *)
Definition criteria_info : list (string * (string * string * Z)) :=
  [("revenue", ("経常収益", "右肩上がり", 15));
   ("eps", ("EPS", "右肩上がり", 15));
   ("assets", ("総資産", "増加傾向", 10));
   ("operating_cf", ("営業CF", "プラス＆増加", 10));
   ("cash", ("現金等", "積み上がり", 10));
   ("roe", ("ROE", "7%以上", 10));
   ("equity_ratio", ("自己資本比率", "50%以上", 10));
   ("dividend", ("1株配当", "非減配", 10));
   ("payout_ratio", ("配当性向", "40%以下", 10))].

(** One card of the detailed view. *)
Record card := Card {
  card_name : string;
  card_status : string;
  card_achieved : Z;
  card_max_score : Z;
  card_criteria_text : string;
  card_value : fvalue;
  card_color : string
}.

Definition card_background (achieved max_score : Z) : string :=
  if achieved =? max_score then "#d4edda"
  else if 0 <? achieved then "#fff3cd"
  else "#f8d7da".

(** The body of the loop over [criteria_info.items()]:
    [score_details.get(key, {'score': 0, 'status': '❌ 不合格', 'value': 'N/A'})]
    and the three subscripts, which raise on a text value. *)
Definition detail_card (score_details : list (string * detail))
    (row : string * (string * string * Z)) : exc card :=
  let '(key, (name, criteria_text, max_score)) := row in
  match default (Criterion (Item 0 status_fail NA))
                (breakdown_get key score_details) with
  | Criterion it =>
    Ok (Card name (item_status it) (item_score it) max_score criteria_text
             (item_value it) (card_background (item_score it) max_score))
  | Note _ => Raise TypeError
  end.

Fixpoint detail_cards_of (score_details : list (string * detail))
    (rows : list (string * (string * string * Z))) : exc (list card) :=
  match rows with
  | [] => Ok []
  | row :: rest =>
    c ← detail_card score_details row;
    cs ← detail_cards_of score_details rest;
    Ok (c :: cs)
  end.

Definition detail_cards (score_details : list (string * detail))
    : exc (list card) :=
  detail_cards_of score_details criteria_info.

(** The four metrics of the page header. *)
Definition f_1e12 : pyfloat := FFin (Qmake 1000000000000 1).

Inductive metric_text :=
| MetricNA                          (* "N/A" *)
| Trillions2 (v : pyval)            (* f"{v/1e12:.2f}兆円" *)
| HundredMillions2 (v : pyval)      (* f"{v/1e9:.2f}億円" *)
| Plain2 (v : pyval)                (* f"{v:.2f}" *)
| Percent2 (v : pyval).             (* f"{v*100:.2f}%" *)

(** [info.get(key, 0)] *)
Definition info_get_or_0 (info : gmap string pyval) (key : string) : pyval :=
  default (VInt 0) (info !! key).

(** Dividing an [int] by [1e12] converts it to a float as dividing by [1e9]
    does, so both branches raise on the same values. *)
Definition market_cap_metric (info : gmap string pyval) : exc metric_text :=
  let market_cap := info_get_or_0 info "marketCap" in
  c ← py_gt market_cap (VFloat f_1e12);
  if c : bool then _ ← format_div1e9 market_cap; Ok (Trillions2 market_cap)
  else _ ← format_div1e9 market_cap; Ok (HundredMillions2 market_cap).

Definition per_metric (info : gmap string pyval) : exc metric_text :=
  let pe := info_get_or_0 info "trailingPE" in
  if truthy pe then _ ← format_f pe; Ok (Plain2 pe) else Ok MetricNA.

Definition pbr_metric (info : gmap string pyval) : exc metric_text :=
  let pb := info_get_or_0 info "priceToBook" in
  if truthy pb then _ ← format_f pb; Ok (Plain2 pb) else Ok MetricNA.

Definition dividend_yield_metric (info : gmap string pyval)
    : exc metric_text :=
  let div_yield := info_get_or_0 info "dividendYield" in
  if truthy div_yield then _ ← format_times100 div_yield; Ok (Percent2 div_yield)
  else Ok MetricNA.

Definition header_metrics (info : gmap string pyval)
    : exc (metric_text * metric_text * metric_text * metric_text) :=
  market_cap ← market_cap_metric info;
  per ← per_metric info;
  pbr ← pbr_metric info;
  div_yield ← dividend_yield_metric info;
  Ok (market_cap, per, pbr, div_yield).

(** ** The sidebar: [reversed(history[-5:])] *)
Definition sidebar_recent (history : list entry) : list entry :=
  reverse (last_n 5 history).

(** ** The analysis tab

    The block under [with tab1:] up to the detailed cards: fetch, score,
    save, then the header metrics, the gauge, the pie chart, the comment and
    the cards.  An exception that nothing catches ends the run. *)

Record report := Report {
  report_company_name : pyval;
  report_score : Z;
  report_metrics : metric_text * metric_text * metric_text * metric_text;
  report_gauge_color : string;
  report_pie : pie;
  report_verdict : verdict;
  report_cards : list card
}.

Inductive page_exn :=
| Builtin (e : exn)
| AttributeError.

Inductive page :=
| Prompt                 (* st.info: enter a code in the sidebar *)
| MissingCode            (* st.warning: the code is empty *)
| FetchFailed            (* st.error, then st.stop() *)
| Shown (r : report)
| Uncaught (e : page_exn).

Definition lift {A} (r : exc A) (k : A → page) : page :=
  match r with
  | Ok a => k a
  | Raise e => Uncaught (Builtin e)
  end.

(** What follows [save_history] in the block. *)
Definition render_report (d : stock_data) (score : Z)
    (score_details : list (string * detail)) : page :=
  match data_info d with
  | None => Uncaught AttributeError
  | Some info =>
    lift (header_metrics info) (λ metrics,
    lift (create_score_pie_chart score_details) (λ chart,
    lift (detail_cards score_details) (λ cards,
    Shown (Report (data_company_name d) score metrics (gauge_color score)
                  chart (verdict_of score) cards))))
  end.

Definition tab1 (p : provider) (analyze_button : bool)
    (stock_code now current_month : string) (fs : files)
    : files * list event * page :=
  let has_code := negb (String.eqb stock_code "") in
  if analyze_button && has_code then
    let '(data, log) := fetch_stock_data p stock_code in
    match data with
    | None => (fs, log, FetchFailed)
    | Some d =>
      match calculate_comprehensive_score (Some d) with
      | Raise e => (fs, log, Uncaught (Builtin e))
      | Ok (score, score_details) =>
        (save_history stock_code (data_company_name d) score score_details
                      now current_month fs,
         log,
         render_report d score score_details)
      end
    end
  else if negb has_code && analyze_button then
    (fs, [], MissingCode)
  else (fs, [], Prompt).

(** ** Measures of a fetch log *)

Fixpoint seconds_slept (log : list event) : nat :=
  match log with
  | [] => 0
  | Sleep s :: rest => s + seconds_slept rest
  | _ :: rest => seconds_slept rest
  end.

Definition is_info_query (e : event) : bool :=
  match e with
  | QueryInfo _ => true
  | _ => false
  end.

Definition info_queries (log : list event) : nat :=
  length (List.filter is_info_query log).

(** ** Tiers *)

(** An item is the PASS item of [full] points, the PARTIAL item of [half]
    points where the criterion has one, or the FAIL item. *)
Definition tiered (full : Z) (half : option Z) (it : item) : Prop :=
  (item_score it = full ∧ item_status it = status_pass ∧ item_value it ≠ NA) ∨
  (Some (item_score it) = half ∧ item_status it = status_partial ∧
   item_value it ≠ NA) ∨
  it = failed.

Definition tiers : list (Z * option Z) :=
  [(15, Some 8); (15, Some 8); (10, None); (10, None); (10, None);
   (10, Some 5); (10, Some 5); (10, None); (10, Some 5)].

(** A card whose colour, status and points tell the same tier. *)
Definition card_consistent (c : card) : Prop :=
  (card_status c = status_pass ∧ card_color c = "#d4edda" ∧
   card_achieved c = card_max_score c) ∨
  (card_status c = status_partial ∧ card_color c = "#fff3cd" ∧
   0 < card_achieved c < card_max_score c) ∨
  (card_status c = status_fail ∧ card_color c = "#f8d7da" ∧
   card_achieved c = 0 ∧ card_value c = NA).


(** The breakdown of the fallback. *)
Definition fallback_details : list (string * detail) :=
  [("note", Note fallback_note)].

(** An info mapping with nothing but a null market capitalisation. *)
Definition null_market_cap : gmap string pyval :=
  {["marketCap" := VNone]}.

(** A provider with a price history but a failing info query. *)
Definition no_info : provider :=
  Provider (λ _, HistoryReturns one_bar) (λ _, InfoRaises).

(** A provider whose info holds a null market capitalisation. *)
Definition null_cap_provider : provider :=
  Provider (λ _, HistoryReturns one_bar) (λ _, InfoReturns null_market_cap).

(** An info mapping with none of the scored fields. *)
Definition only_name : gmap string pyval :=
  {["longName" := VStr "Toyota Motor"]}.

(** The points of the revenue criterion for a growth [x]. *)
Definition revenue_points (x : pyfloat) : Z :=
  if float_ltb f_0_05 x then 15
  else if float_ltb (FFin 0) x then 8
  else 0.

(** An info mapping whose ratios and trailing EPS are all NaN. *)
Definition nan_ratios : gmap string pyval :=
  <["revenueGrowth" := VFloat FNaN]>
  (<["trailingEps" := VFloat FNaN]>
  (<["forwardEps" := VFloat (FFin (Qmake 5 2))]>
  (<["returnOnEquity" := VFloat FNaN]>
  (<["debtToEquity" := VFloat FNaN]>
  (<["payoutRatio" := VFloat FNaN]> ∅))))).

(** ** Scoring engine *)

Ltac exc_simpl :=
  unfold mbind, exc_bind, mret, exc_ret in *; simpl in *.

Ltac case_if :=
  match goal with
  | |- context [if ?b then _ else _] => destruct b eqn:?
  end.

Ltac settle := eexists; repeat split; simpl; try lia; try done.

Lemma int_fits_unscaled z : int_fits_float (z * 1) = true → int_fits_float z = true.
Proof. by rewrite Z.mul_1_r. Qed.

Lemma render_billions1_int z :
  int_fits_float z = true → ∃ r, render_billions1 (VInt z) = Ok r.
Proof. intros H. unfold render_billions1. simpl. rewrite H. by eexists. Qed.

Lemma render_yen2_int z :
  int_fits_float z = true → ∃ r, render_yen2 (VInt z) = Ok r.
Proof. intros H. unfold render_yen2. simpl. rewrite H. by eexists. Qed.


(** *** The criteria one by one *)

Section criteria.
  Context (info : gmap string pyval).

Lemma score_revenue_yields :
  let v := info_get info "revenueGrowth" in
  field_ok 100 v = true →
  ∃ it, yields 15 (negb (truthy v)) (score_revenue info) it.
Proof.
  unfold score_revenue, yields, and_then, render_percent1, py_gt, py_lt.
  destruct (info_get info "revenueGrowth") as [|z|f|s]; simpl; intros Hok;
    try discriminate; exc_simpl; rewrite ?Hok;
    repeat (case_if; simpl); settle.
Qed.

Lemma score_roe_yields :
  let v := info_get info "returnOnEquity" in
  field_ok 100 v = true →
  ∃ it, yields 10 (negb (truthy v)) (score_roe info) it.
Proof.
  unfold score_roe, yields, and_then, render_percent1, py_gt, py_lt.
  destruct (info_get info "returnOnEquity") as [|z|f|s]; simpl; intros Hok;
    try discriminate; exc_simpl; rewrite ?Hok;
    repeat (case_if; simpl); settle.
Qed.

Lemma score_payout_ratio_yields :
  let v := info_get info "payoutRatio" in
  field_ok 100 v = true →
  ∃ it, yields 10 (negb (truthy v)) (score_payout_ratio info) it.
Proof.
  unfold score_payout_ratio, yields, and_then, render_percent1, py_le.
  destruct (info_get info "payoutRatio") as [|z|f|s]; simpl; intros Hok;
    try discriminate; exc_simpl; rewrite ?Hok;
    repeat (case_if; simpl); settle.
Qed.

Lemma score_equity_ratio_yields :
  let v := info_get info "debtToEquity" in
  field_ok 1 v = true →
  ∃ it, yields 10 (negb (is_not_None v)) (score_equity_ratio info) it.
Proof.
  unfold score_equity_ratio, yields, render_debt_equity1, py_lt.
  destruct (info_get info "debtToEquity") as [|z|f|s]; simpl; intros Hok;
    try discriminate; try apply int_fits_unscaled in Hok;
    exc_simpl; rewrite ?Hok;
    repeat (case_if; simpl); settle.
Qed.

Lemma score_eps_yields :
  let eps := info_get info "trailingEps" in
  field_ok 1 eps = true →
  field_ok 1 (info_get info "forwardEps") = true →
  ∃ it, yields 15 (negb (truthy eps)) (score_eps info) it.
Proof.
  unfold score_eps, yields, and_then, render_fixed2_arrow, render_fixed2,
    py_gt, py_lt.
  destruct (info_get info "trailingEps") as [|z|f|s],
           (info_get info "forwardEps") as [|z'|f'|s']; simpl;
    intros Hok Hok'; try discriminate;
    try apply int_fits_unscaled in Hok; try apply int_fits_unscaled in Hok';
    exc_simpl; rewrite ?Hok, ?Hok';
    repeat (case_if; simpl); settle.
Qed.

Lemma score_positive_yields key render :
  let v := info_get info key in
  field_ok 1 v = true →
  (∀ z, int_fits_float z = true → ∃ r, render (VInt z) = Ok r) →
  (∀ f, ∃ r, render (VFloat f) = Ok r) →
  ∃ it, yields 10 (negb (truthy v)) (score_positive info key render) it.
Proof.
  unfold score_positive, yields, and_then, py_gt, py_lt.
  destruct (info_get info key) as [|z|f|s]; simpl; intros Hok Hint Hfloat;
    try discriminate; try apply int_fits_unscaled in Hok.
  - exc_simpl. settle.
  - destruct (Hint z Hok) as [r ->]. exc_simpl.
    repeat (case_if; simpl); settle.
  - destruct (Hfloat f) as [r ->]. exc_simpl.
    repeat (case_if; simpl); settle.
Qed.

Lemma calculate_nonempty d :
  data_info d = Some info → info ≠ ∅ →
  calculate_comprehensive_score (Some d) = score_info info.
Proof.
  intros Hd Hne. unfold calculate_comprehensive_score. rewrite Hd.
  by destruct (decide (info = ∅)).
Qed.

Lemma renderable_fields :
  renderable info →
  field_ok 100 (info_get info "revenueGrowth") = true ∧
  field_ok 1 (info_get info "trailingEps") = true ∧
  field_ok 1 (info_get info "forwardEps") = true ∧
  field_ok 1 (info_get info "totalAssets") = true ∧
  field_ok 1 (info_get info "operatingCashflow") = true ∧
  field_ok 1 (info_get info "totalCash") = true ∧
  field_ok 100 (info_get info "returnOnEquity") = true ∧
  field_ok 1 (info_get info "debtToEquity") = true ∧
  field_ok 1 (info_get info "dividendRate") = true ∧
  field_ok 100 (info_get info "payoutRatio") = true.
Proof.
  unfold renderable, scored_fields. cbn [forallb].
  rewrite !andb_true_iff. tauto.
Qed.

(** On a renderable mapping every criterion returns, and the result of the
    engine is the list of the nine items with the sum of their points. *)
Lemma score_info_ok :
  renderable info →
  ∃ revenue eps assets operating_cf cash roe equity_ratio dividend payout_ratio,
    yields 15 (negb (truthy (info_get info "revenueGrowth")))
           (score_revenue info) revenue ∧
    yields 15 (negb (truthy (info_get info "trailingEps")))
           (score_eps info) eps ∧
    yields 10 (negb (truthy (info_get info "totalAssets")))
           (score_assets info) assets ∧
    yields 10 (negb (truthy (info_get info "operatingCashflow")))
           (score_operating_cf info) operating_cf ∧
    yields 10 (negb (truthy (info_get info "totalCash")))
           (score_cash info) cash ∧
    yields 10 (negb (truthy (info_get info "returnOnEquity")))
           (score_roe info) roe ∧
    yields 10 (negb (is_not_None (info_get info "debtToEquity")))
           (score_equity_ratio info) equity_ratio ∧
    yields 10 (negb (truthy (info_get info "dividendRate")))
           (score_dividend info) dividend ∧
    yields 10 (negb (truthy (info_get info "payoutRatio")))
           (score_payout_ratio info) payout_ratio ∧
    score_info info =
      Ok (foldr Z.add 0
            (item_score <$> [revenue; eps; assets; operating_cf; cash; roe;
                             equity_ratio; dividend; payout_ratio]),
          zip criteria
            (Criterion <$> [revenue; eps; assets; operating_cf; cash; roe;
                            equity_ratio; dividend; payout_ratio])).
Proof.
  intros (H1 & H2 & H3 & H4 & H5 & H6 & H7 & H8 & H9 & H10)%renderable_fields.
  destruct (score_revenue_yields H1) as [revenue Y1].
  destruct (score_eps_yields H2 H3) as [eps Y2].
  destruct (score_positive_yields "totalAssets" render_billions1 H4
              render_billions1_int (λ f, ex_intro _ _ eq_refl)) as [assets Y3].
  destruct (score_positive_yields "operatingCashflow" render_billions1 H5
              render_billions1_int (λ f, ex_intro _ _ eq_refl))
    as [operating_cf Y4].
  destruct (score_positive_yields "totalCash" render_billions1 H6
              render_billions1_int (λ f, ex_intro _ _ eq_refl)) as [cash Y5].
  destruct (score_roe_yields H7) as [roe Y6].
  destruct (score_equity_ratio_yields H8) as [equity_ratio Y7].
  destruct (score_positive_yields "dividendRate" render_yen2 H9
              render_yen2_int (λ f, ex_intro _ _ eq_refl)) as [dividend Y8].
  destruct (score_payout_ratio_yields H10) as [payout_ratio Y9].
  exists revenue, eps, assets, operating_cf, cash, roe, equity_ratio,
    dividend, payout_ratio.
  repeat (split; [assumption |]).
  unfold score_info.
  fold (score_assets info) (score_operating_cf info) (score_cash info)
       (score_dividend info) in *.
  rewrite (proj1 Y1), (proj1 Y2), (proj1 Y3), (proj1 Y4), (proj1 Y5),
    (proj1 Y6), (proj1 Y7), (proj1 Y8), (proj1 Y9).
  reflexivity.
Qed.



End criteria.

(** *** The engine on the inputs of the specification *)

Example scenario_scores_100 :
  ∃ details,
    calculate_comprehensive_score (bundle spec_scenario) = Ok (100, details).
Proof. eexists. vm_compute. reflexivity. Qed.

Example growth_3_percent_partial :
  score_revenue (growth 3) =
    Ok (Item 8 status_partial (Percent1 (VFloat (FFin (Qmake 3 100))))).
Proof. vm_compute. reflexivity. Qed.

Example growth_6_percent_pass :
  score_revenue (growth 6) =
    Ok (Item 15 status_pass (Percent1 (VFloat (FFin (Qmake 6 100))))).
Proof. vm_compute. reflexivity. Qed.

Example nan_payout_partial :
  score_payout_ratio {["payoutRatio" := VFloat FNaN]} =
    Ok (Item 5 status_partial (Percent1 (VFloat FNaN))).
Proof. vm_compute. reflexivity. Qed.

Example largest_int_still_renders :
  score_assets {["totalAssets" := VInt (2 ^ 1024 - 2 ^ 970 - 1)]} =
    Ok (Item 10 status_pass (Billions1 (VInt (2 ^ 1024 - 2 ^ 970 - 1)))).
Proof. vm_compute. reflexivity. Qed.

(** C1, as stated, fails: an integer field too large for a double is
    numeric, yet rendering it raises [OverflowError] and no score is
    returned. *)
Lemma huge_int_field_raises :
  huge_assets ≠ ∅ ∧
  map_Forall (λ _ v, numeric_or_null v = true) huge_assets ∧
  calculate_comprehensive_score (bundle huge_assets) = Raise OverflowError.
Proof.
  split; [apply insert_non_empty |].
  split; [by apply map_Forall_singleton |].
  vm_compute. reflexivity.
Qed.

(** C1 (amended): on a non-empty info mapping whose scored fields are null,
    floats, or integers that convert to a double, the engine returns a total
    between 0 and 100 that is the sum of the nine items of the breakdown,
    each item within its weight. *)
Theorem total_score_bounded (d : stock_data) (info : gmap string pyval) :
  data_info d = Some info → info ≠ ∅ → renderable info →
  ∃ total items,
    calculate_comprehensive_score (Some d) =
      Ok (total, zip criteria (Criterion <$> items)) ∧
    Forall2 (λ w it, 0 ≤ item_score it ≤ w) weights items ∧
    total = foldr Z.add 0 (item_score <$> items) ∧
    0 ≤ total ≤ 100.
Proof.
  intros Hd Hne Hok. rewrite (calculate_nonempty info d Hd Hne).
  destruct (score_info_ok info Hok)
    as (r & e & a & o & c & ro & eq & dv & p &
        (_ & B1 & _) & (_ & B2 & _) & (_ & B3 & _) & (_ & B4 & _) &
        (_ & B5 & _) & (_ & B6 & _) & (_ & B7 & _) & (_ & B8 & _) &
        (_ & B9 & _) & Hrun).
  eexists _, [r; e; a; o; c; ro; eq; dv; p].
  split; [exact Hrun |].
  split; [unfold weights; repeat constructor; lia |].
  split; [reflexivity |]. simpl. lia.
Qed.

Lemma total_score_bounded_witness :
  ∃ total items,
    calculate_comprehensive_score (bundle spec_scenario) =
      Ok (total, zip criteria (Criterion <$> items)) ∧
    Forall2 (λ w it, 0 ≤ item_score it ≤ w) weights items ∧
    total = foldr Z.add 0 (item_score <$> items) ∧
    0 ≤ total ≤ 100.
Proof.
  apply (total_score_bounded _ spec_scenario).
  - reflexivity.
  - apply insert_non_empty.
  - vm_compute. reflexivity.
Defined.


(** C2: with no bundle, a bundle without info, or a bundle whose info
    mapping is empty, the engine returns exactly 50 and a breakdown whose
    single entry is the note. *)
Theorem empty_info_neutral_score (name : pyval) (hist : list bar) :
  calculate_comprehensive_score None = Ok (50, [("note", Note fallback_note)]) ∧
  calculate_comprehensive_score (Some (StockData name None hist)) =
    Ok (50, [("note", Note fallback_note)]) ∧
  calculate_comprehensive_score (Some (StockData name (Some ∅) hist)) =
    Ok (50, [("note", Note fallback_note)]).
Proof. repeat split. Qed.











(** ** Fetch retry loop *)

Example throttled_twice_then_succeeds :
  fetch_stock_data throttled_twice "7203" =
    (Some (StockData (VStr "Toyota Motor")
                     (Some {["longName" := VStr "Toyota Motor"]}) one_bar),
     [Sleep 1; QueryHistory "7203.T"; StWarning (RateLimitWait 2 1 3); Sleep 2;
      Sleep 1; QueryHistory "7203.T"; StWarning (RateLimitWait 4 2 3); Sleep 4;
      Sleep 1; QueryHistory "7203.T"; Sleep 1; QueryInfo "7203.T"]).
Proof. reflexivity. Qed.

Example always_throttled_gives_up :
  fetch_stock_data always_throttled "7203" =
    (None,
     [Sleep 1; QueryHistory "7203.T"; StWarning (RateLimitWait 2 1 3); Sleep 2;
      Sleep 1; QueryHistory "7203.T"; StWarning (RateLimitWait 4 2 3); Sleep 4;
      Sleep 1; QueryHistory "7203.T"; StError RateLimited]).
Proof. reflexivity. Qed.

(** C6, as stated, fails: against a provider that always raises an error
    without the rate-limit signature, the fetch queries the provider three
    times, not two. *)
Lemma other_error_three_attempts :
  is_rate_limit "Connection reset by peer" = false ∧
  fetch_stock_data always_failing "7203" =
    (None, [Sleep 1; QueryHistory "7203.T"; Sleep 2;
            Sleep 1; QueryHistory "7203.T"; Sleep 2;
            Sleep 1; QueryHistory "7203.T"]) ∧
  attempts_made (fetch_stock_data always_failing "7203").2 = 3%nat ∧
  attempts_made (fetch_stock_data always_failing "7203").2 ≠ 2%nat.
Proof. repeat split. discriminate. Qed.

(** C6 (amended): when every error of the provider lacks the rate-limit
    signature, the fetch retries twice, each time after the flat delay of
    [retry_delay] seconds, and fails after three attempts in all. *)
Theorem other_error_retried_flat (p : provider) (code : string) :
  (∀ attempt, ∃ error_msg,
      reply_history p attempt = HistoryRaises error_msg ∧
      is_rate_limit error_msg = false) →
  fetch_stock_data p code =
    (None, [Sleep 1; QueryHistory (code ++ ".T"); Sleep retry_delay;
            Sleep 1; QueryHistory (code ++ ".T"); Sleep retry_delay;
            Sleep 1; QueryHistory (code ++ ".T")]) ∧
  attempts_made (fetch_stock_data p code).2 = max_retries.
Proof.
  intros Hraise.
  assert (Hrun : fetch_stock_data p code =
    (None, [Sleep 1; QueryHistory (code ++ ".T"); Sleep retry_delay;
            Sleep 1; QueryHistory (code ++ ".T"); Sleep retry_delay;
            Sleep 1; QueryHistory (code ++ ".T")])).
  { unfold fetch_stock_data, fetch_loop, fetch_attempt. cbn [seq max_retries].
    destruct (Hraise 0%nat) as (m0 & -> & ->).
    destruct (Hraise 1%nat) as (m1 & -> & ->).
    destruct (Hraise 2%nat) as (m2 & -> & ->).
    reflexivity. }
  split; [exact Hrun |]. rewrite Hrun. reflexivity.
Qed.

Lemma other_error_retried_flat_witness :
  attempts_made (fetch_stock_data always_failing "7203").2 = max_retries.
Proof.
  apply (other_error_retried_flat always_failing "7203").
  intros attempt. exists "Connection reset by peer". split; reflexivity.
Defined.

(** C8: an attempt on which the provider returns an empty price history
    ends the fetch there with the not-found error: the log holds the
    courtesy delay, the one query and the error, and nothing after them,
    whatever attempts were left; so a fetch whose first query comes back
    empty makes exactly one query and waits for no retry. *)
Theorem empty_history_not_found
    (p : provider) (code : string) (attempt : nat) (rest : list nat) :
  reply_history p attempt = HistoryReturns [] →
  fetch_loop p code (attempt :: rest) =
    (None, [Sleep 1; QueryHistory (code ++ ".T"); StError (NotFound code)]) ∧
  (attempt = 0%nat →
   fetch_stock_data p code =
     (None, [Sleep 1; QueryHistory (code ++ ".T"); StError (NotFound code)]) ∧
   attempts_made (fetch_stock_data p code).2 = 1%nat).
Proof.
  intros Hempty.
  assert (Hloop : ∀ rest', fetch_loop p code (attempt :: rest') =
    (None, [Sleep 1; QueryHistory (code ++ ".T"); StError (NotFound code)])).
  { intros rest'. cbn [fetch_loop]. unfold fetch_attempt.
    rewrite Hempty. reflexivity. }
  split; [apply Hloop |].
  intros ->. unfold fetch_stock_data. cbn [seq max_retries].
  rewrite Hloop. split; reflexivity.
Qed.

Lemma empty_history_not_found_witness :
  fetch_stock_data unknown_ticker "0000" =
    (None, [Sleep 1; QueryHistory "0000.T"; StError (NotFound "0000")]) ∧
  attempts_made (fetch_stock_data unknown_ticker "0000").2 = 1%nat.
Proof.
  apply (empty_history_not_found unknown_ticker "0000" 0 [1; 2]%nat);
    reflexivity.
Defined.

(** ** History store *)

Lemma last_n_length {A} n (l : list A) : (length (last_n n l) ≤ n)%nat.
Proof. unfold last_n. rewrite length_drop. lia. Qed.

Lemma last_n_short {A} n (l : list A) : (length l ≤ n)%nat → last_n n l = l.
Proof.
  intros Hle. unfold last_n. by replace (length l - n)%nat with 0%nat by lia.
Qed.

(** Truncating early does not change what a later truncation keeps. *)
Lemma last_n_app {A} n (l k : list A) :
  last_n n (last_n n l ++ k) = last_n n (l ++ k).
Proof.
  destruct (decide (length l ≤ n)%nat) as [Hle|Hgt].
  - by rewrite (last_n_short n l).
  - unfold last_n. rewrite !length_app, length_drop.
    replace (length l - (length l - n) + length k - n)%nat
      with (length k) by lia.
    replace (length l + length k - n)%nat
      with ((length l - n) + length k)%nat by lia.
    rewrite <- drop_drop. f_equal.
    rewrite drop_app_le by lia. reflexivity.
Qed.

Lemma load_history_save fs a :
  load_history (save fs a) = last_n 100 (load_history fs ++ [entry_of a]).
Proof. reflexivity. Qed.

Lemma load_history_save_all fs session :
  load_history (save_all fs session) =
    match session with
    | [] => load_history fs
    | _ :: _ => last_n 100 (load_history fs ++ (entry_of <$> session))
    end.
Proof.
  revert fs. induction session as [|a session IH]; intros fs; [done |].
  unfold save_all in *. cbn [foldl]. rewrite IH.
  destruct session as [|b session].
  - by rewrite load_history_save.
  - rewrite load_history_save, last_n_app. cbn [fmap list_fmap].
    by rewrite <- app_assoc.
Qed.

(** C3: after every append the persisted history holds at most 100
    records, whatever it held before; and 105 records appended to an absent
    or empty history leave exactly the last 100 of them, in the order they were
    appended. *)
Theorem history_capped_fifo :
  (∀ fs a, (length (load_history (save fs a)) ≤ 100)%nat) ∧
  (∀ fs session a,
      (length (load_history (save_all fs (session ++ [a]))) ≤ 100)%nat) ∧
  (∀ fs session,
      load_history fs = [] → length session = 105%nat →
      load_history (save_all fs session) = drop 5 (entry_of <$> session)).
Proof.
  split; [intros; rewrite load_history_save; apply last_n_length |].
  split.
  - intros fs session a. unfold save_all. rewrite foldl_app. cbn [foldl].
    rewrite load_history_save. apply last_n_length.
  - intros fs session Hempty Hlen. rewrite load_history_save_all, Hempty.
    destruct session as [|a session]; [discriminate |].
    unfold last_n. cbn [app]. rewrite length_fmap, Hlen. reflexivity.
Qed.

Lemma history_capped_fifo_witness :
  load_history (save_all (Files None None) (sequential <$> seq 0 105)) =
    entry_of <$> (sequential <$> seq 5 100).
Proof.
  destruct history_capped_fifo as (_ & _ & Hfifo).
  rewrite (Hfifo (Files None None) (sequential <$> seq 0 105)); reflexivity.
Defined.

(** ** Ranking store *)

Lemma insert_by_score_perm x l : insert_by_score x l ≡ₚ x :: l.
Proof.
  induction l as [|y l IH]; [done |]. cbn [insert_by_score].
  destruct (score x <? score y); [| done].
  rewrite IH. apply Permutation_swap.
Qed.

Lemma sort_by_score_desc_perm l : sort_by_score_desc l ≡ₚ l.
Proof.
  induction l as [|x l IH]; [done |]. cbn [sort_by_score_desc].
  by rewrite insert_by_score_perm, IH.
Qed.

Lemma insert_by_score_sorted x l :
  StronglySorted by_score_desc l →
  StronglySorted by_score_desc (insert_by_score x l).
Proof.
  induction 1 as [|y l Hsorted IH Hy]; cbn [insert_by_score].
  { repeat constructor. }
  destruct (score x <? score y) eqn:Hlt.
  - apply Z.ltb_lt in Hlt. constructor; [exact IH |].
    rewrite insert_by_score_perm. constructor; [| exact Hy].
    unfold by_score_desc. lia.
  - apply Z.ltb_ge in Hlt. constructor; [by constructor |].
    constructor; [exact Hlt |].
    eapply Forall_impl; [exact Hy |].
    unfold by_score_desc. intros z Hz. lia.
Qed.

Lemma sort_by_score_desc_sorted l :
  StronglySorted by_score_desc (sort_by_score_desc l).
Proof.
  induction l as [|x l IH]; cbn [sort_by_score_desc]; [constructor |].
  by apply insert_by_score_sorted.
Qed.

(** The sort is stable: the entries of any one score come out in the order
    they went in. *)
Lemma insert_by_score_stable s x l :
  filter (λ r, score r = s) (insert_by_score x l) =
  filter (λ r, score r = s) (x :: l).
Proof.
  induction l as [|y l IH]; [done |]. cbn [insert_by_score].
  destruct (score x <? score y) eqn:Hlt; [| done].
  apply Z.ltb_lt in Hlt.
  rewrite (filter_cons _ y), IH, !filter_cons.
  repeat case_decide; try done; lia.
Qed.

Lemma sort_by_score_desc_stable s l :
  filter (λ r, score r = s) (sort_by_score_desc l) =
  filter (λ r, score r = s) l.
Proof.
  induction l as [|x l IH]; [done |]. cbn [sort_by_score_desc].
  by rewrite insert_by_score_stable, !filter_cons, IH.
Qed.

(** The bucket of the current month after an update. *)
Lemma update_monthly_ranking_bucket e month fs :
  load_monthly_ranking month (update_monthly_ranking e month fs) =
    sort_by_score_desc
      (filter (λ r, stock_code r ≠ stock_code e)
              (load_monthly_ranking month fs) ++ [e]).
Proof.
  unfold load_monthly_ranking, update_monthly_ranking.
  destruct (RANKING_FILE fs) as [rankings|]; simpl;
    rewrite !lookup_insert_eq; simpl.
  - destruct (rankings !! month) as [bucket|] eqn:Hbucket.
    + by rewrite Hbucket.
    + by rewrite lookup_insert_eq.
  - by rewrite lookup_empty, lookup_insert_eq.
Qed.

(** The buckets of the other months after an update. *)
Lemma update_monthly_ranking_other e month fs k :
  k ≠ month →
  rankings_of (update_monthly_ranking e month fs) !! k = rankings_of fs !! k.
Proof.
  intros Hne. unfold rankings_of, update_monthly_ranking. simpl.
  rewrite !lookup_insert_ne by done.
  destruct (default ∅ (RANKING_FILE fs) !! month); [done |].
  by rewrite lookup_insert_ne.
Qed.

Lemma load_monthly_ranking_lookup month fs :
  load_monthly_ranking month fs = default [] (rankings_of fs !! month).
Proof.
  unfold load_monthly_ranking, rankings_of.
  destruct (RANKING_FILE fs); simpl; [done |]. by rewrite lookup_empty.
Qed.

Lemma NoDup_tickers_filter (P : entry → Prop) `{∀ r, Decision (P r)} l :
  NoDup (stock_code <$> l) → NoDup (stock_code <$> filter P l).
Proof.
  induction l as [|x l IH]; [done |].
  rewrite fmap_cons, NoDup_cons. intros [Hx Hl].
  rewrite filter_cons. case_decide; [| by apply IH].
  rewrite fmap_cons, NoDup_cons. split; [| by apply IH].
  intros (r & Heq & Hr%list_elem_of_filter)%list_elem_of_fmap.
  apply Hx, list_elem_of_fmap. exists r. tauto.
Qed.

(** An update keeps a bucket free of duplicate tickers. *)
Lemma update_monthly_ranking_nodup e month fs :
  NoDup (stock_code <$> load_monthly_ranking month fs) →
  NoDup (stock_code <$>
           load_monthly_ranking month (update_monthly_ranking e month fs)).
Proof.
  intros Hnodup. rewrite update_monthly_ranking_bucket.
  rewrite sort_by_score_desc_perm, fmap_app. apply NoDup_app.
  split; [by apply NoDup_tickers_filter |]. split; [| apply NoDup_singleton].
  intros code (r & -> & [Hr _]%list_elem_of_filter)%list_elem_of_fmap.
  cbn. rewrite list_elem_of_singleton. done.
Qed.

(** Every bucket of a ranking store built by updates alone is free of
    duplicate tickers. *)
Lemma update_all_nodup history updates month :
  NoDup (stock_code <$>
           load_monthly_ranking month (update_all (Files history None) updates)).
Proof.
  induction updates as [|[e m] updates IH] using rev_ind.
  { cbn. constructor. }
  unfold update_all in *. rewrite foldl_app. cbn [foldl].
  destruct (decide (month = m)) as [->|Hne].
  - by apply update_monthly_ranking_nodup.
  - rewrite load_monthly_ranking_lookup, update_monthly_ranking_other by done.
    by rewrite <- load_monthly_ranking_lookup.
Qed.

Example ranking_orders_by_score :
  load_monthly_ranking "2024-05"
    (update_all (Files None None)
       [(may_entry "A" 30, "2024-05"); (may_entry "B" 90, "2024-05");
        (may_entry "C" 60, "2024-05")]) =
  [may_entry "B" 90; may_entry "C" 60; may_entry "A" 30].
Proof. reflexivity. Qed.

Example reanalysis_replaces_entry :
  load_monthly_ranking "2024-05"
    (update_all (Files None None)
       [(may_entry "7203" 40, "2024-05"); (may_entry "7203" 70, "2024-05")]) =
  [may_entry "7203" 70].
Proof. reflexivity. Qed.

Example ties_keep_insertion_order :
  load_monthly_ranking "2024-05"
    (update_all (Files None None)
       [(may_entry "A" 60, "2024-05"); (may_entry "B" 60, "2024-05");
        (may_entry "C" 90, "2024-05"); (may_entry "D" 60, "2024-05")]) =
  [may_entry "C" 90; may_entry "A" 60; may_entry "B" 60; may_entry "D" 60].
Proof. reflexivity. Qed.

(** Once the entries of a ticker are removed, none is left to find. *)
Lemma filter_removed_ticker code (l : list entry) :
  filter (λ r, stock_code r = code) (filter (λ r, stock_code r ≠ code) l) = [].
Proof.
  induction l as [|x l IH]; [done |].
  rewrite (filter_cons (λ r, stock_code r ≠ code)). case_decide; [| done].
  by rewrite filter_cons_False.
Qed.

(** C4: after a ranking update the bucket of the updated month is sorted by
    score, highest first, entries of equal score keeping the order they had
    before the sort (the entries kept, then the new one); it holds the new
    entry as its only entry for that ticker; and, as the bucket held no
    ticker twice before, it holds none twice after.  In a store built by
    updates alone no bucket ever holds a ticker twice. *)
Theorem ranking_bucket_unique_sorted :
  (∀ fs e month,
     let before := load_monthly_ranking month fs in
     let after :=
       load_monthly_ranking month (update_monthly_ranking e month fs) in
     StronglySorted by_score_desc after ∧
     (∀ s, filter (λ r, score r = s) after =
           filter (λ r, score r = s)
                  (filter (λ r, stock_code r ≠ stock_code e) before ++ [e])%list) ∧
     filter (λ r, stock_code r = stock_code e) after = [e] ∧
     (NoDup (stock_code <$> before) → NoDup (stock_code <$> after))) ∧
  (∀ history updates e month,
     NoDup (stock_code <$>
              load_monthly_ranking month
                (update_monthly_ranking e month
                   (update_all (Files history None) updates)))).
Proof.
  split.
  - intros fs e month before after.
    assert (Hnodup : NoDup (stock_code <$> before) →
                     NoDup (stock_code <$> after))
      by apply update_monthly_ranking_nodup.
    revert Hnodup. subst after.
    rewrite update_monthly_ranking_bucket. fold before. intros Hnodup.
    split; [apply sort_by_score_desc_sorted |].
    split; [intros s; apply sort_by_score_desc_stable |].
    split; [| exact Hnodup].
    apply Permutation_singleton_r.
    rewrite sort_by_score_desc_perm, filter_app, filter_removed_ticker.
    by rewrite filter_cons_True.
  - intros history updates e month.
    apply update_monthly_ranking_nodup, update_all_nodup.
Qed.

Lemma ranking_bucket_unique_sorted_witness :
  let fs := Files None (Some may_rankings) in
  let after :=
    load_monthly_ranking "2024-04"
      (update_monthly_ranking (may_entry "6758" 90) "2024-04" fs) in
  after = [may_entry "6758" 90; may_entry "7203" 70] ∧
  NoDup (stock_code <$> after).
Proof.
  split; [reflexivity |].
  destruct ranking_bucket_unique_sorted as [Hupdate _].
  apply (Hupdate (Files None (Some may_rankings)) (may_entry "6758" 90)
                 "2024-04").
  change (NoDup ["7203"; "6758"]).
  apply NoDup_cons. split; [| apply NoDup_singleton].
  rewrite list_elem_of_singleton. discriminate.
Defined.

(** C10: a ranking update leaves the bucket of every month other than the
    current one exactly as it was, and every month-key of the mapping is
    still a key afterwards. *)
Theorem ranking_update_frame (fs : files) (e : entry) (month : string) :
  let after := update_monthly_ranking e month fs in
  is_Some (RANKING_FILE after) ∧
  (∀ k, k ≠ month → rankings_of after !! k = rankings_of fs !! k) ∧
  (∀ k, is_Some (rankings_of fs !! k) → is_Some (rankings_of after !! k)).
Proof.
  intros after. split; [by eexists |].
  split; [intros k Hne; by apply update_monthly_ranking_other |].
  intros k Hk. destruct (decide (k = month)) as [->|Hne].
  - unfold after, rankings_of, update_monthly_ranking. simpl.
    rewrite lookup_insert_eq. by eexists.
  - unfold after. by rewrite update_monthly_ranking_other.
Qed.

Lemma ranking_update_frame_witness :
  rankings_of
    (update_monthly_ranking (may_entry "6758" 90) "2024-05"
       (Files None (Some may_rankings))) !! "2024-04" =
  Some [may_entry "7203" 70; may_entry "6758" 40].
Proof.
  destruct (ranking_update_frame (Files None (Some may_rankings))
              (may_entry "6758" 90) "2024-05") as (_ & Hother & _).
  rewrite Hother; [reflexivity | discriminate].
Defined.

(** ** Tiers of the breakdown *)

Ltac tier_cases :=
  repeat (case_if; simpl);
  intros [= <-];
  first [ left; repeat split; simpl; done
        | right; left; repeat split; simpl; done
        | right; right; reflexivity ].

Section tiers_of_criteria.
  Context (info : gmap string pyval).

Lemma score_revenue_tiered it :
  score_revenue info = Ok it → tiered 15 (Some 8) it.
Proof.
  unfold score_revenue, tiered, and_then, render_percent1, py_gt, py_lt.
  destruct (info_get info "revenueGrowth") as [|z|f|s]; simpl;
    unfold mbind, exc_bind, format_f; simpl; tier_cases.
Qed.

Lemma score_eps_tiered it :
  score_eps info = Ok it → tiered 15 (Some 8) it.
Proof.
  unfold score_eps, tiered, and_then, render_fixed2_arrow, render_fixed2,
    py_gt, py_lt.
  destruct (info_get info "trailingEps") as [|z|f|s],
           (info_get info "forwardEps") as [|z'|f'|s']; simpl;
    unfold mbind, exc_bind, format_f; simpl; tier_cases.
Qed.

Lemma score_positive_tiered key render it :
  (∀ v r, render v = Ok r → r ≠ NA) →
  score_positive info key render = Ok it → tiered 10 None it.
Proof.
  intros Hrender.
  unfold score_positive, tiered, and_then, py_gt, py_lt.
  destruct (info_get info key) as [|z|f|s] eqn:Hv; simpl;
    unfold mbind, exc_bind; simpl;
    repeat (case_if; simpl); try discriminate;
    try (intros [= <-]; right; right; reflexivity);
    match goal with
    | |- context [render ?v] =>
      destruct (render v) as [r|] eqn:Hr; [| discriminate];
      intros [= <-]; left; repeat split; simpl; eauto
    end.
Qed.

Lemma score_roe_tiered it :
  score_roe info = Ok it → tiered 10 (Some 5) it.
Proof.
  unfold score_roe, tiered, and_then, render_percent1, py_gt, py_lt.
  destruct (info_get info "returnOnEquity") as [|z|f|s]; simpl;
    unfold mbind, exc_bind, format_f; simpl; tier_cases.
Qed.

Lemma score_equity_ratio_tiered it :
  score_equity_ratio info = Ok it → tiered 10 (Some 5) it.
Proof.
  unfold score_equity_ratio, tiered, render_debt_equity1, py_lt.
  destruct (info_get info "debtToEquity") as [|z|f|s]; simpl;
    unfold mbind, exc_bind, format_f; simpl; tier_cases.
Qed.

Lemma score_payout_ratio_tiered it :
  score_payout_ratio info = Ok it → tiered 10 (Some 5) it.
Proof.
  unfold score_payout_ratio, tiered, and_then, render_percent1, py_le.
  destruct (info_get info "payoutRatio") as [|z|f|s]; simpl;
    unfold mbind, exc_bind, format_f; simpl; tier_cases.
Qed.
End tiers_of_criteria.

Lemma render_billions1_not_NA v r : render_billions1 v = Ok r → r ≠ NA.
Proof.
  unfold render_billions1, mbind, exc_bind.
  destruct (format_div1e9 v); [| discriminate]. by intros [= <-].
Qed.

Lemma render_yen2_not_NA v r : render_yen2 v = Ok r → r ≠ NA.
Proof.
  unfold render_yen2, mbind, exc_bind.
  destruct (format_f v); [| discriminate]. by intros [= <-].
Qed.

(** Whatever the engine returns is the list of the nine items, each the
    result of its criterion, with the sum of their points. *)
Lemma score_info_inv info total details :
  score_info info = Ok (total, details) →
  ∃ revenue eps assets operating_cf cash roe equity_ratio dividend payout_ratio,
    score_revenue info = Ok revenue ∧
    score_eps info = Ok eps ∧
    score_assets info = Ok assets ∧
    score_operating_cf info = Ok operating_cf ∧
    score_cash info = Ok cash ∧
    score_roe info = Ok roe ∧
    score_equity_ratio info = Ok equity_ratio ∧
    score_dividend info = Ok dividend ∧
    score_payout_ratio info = Ok payout_ratio ∧
    details =
      zip criteria
          (Criterion <$> [revenue; eps; assets; operating_cf; cash; roe;
                          equity_ratio; dividend; payout_ratio]) ∧
    total =
      foldr Z.add 0
            (item_score <$> [revenue; eps; assets; operating_cf; cash; roe;
                             equity_ratio; dividend; payout_ratio]).
Proof.
  unfold score_info.
  destruct (score_revenue info) as [revenue|]; [| discriminate].
  destruct (score_eps info) as [eps|]; [| discriminate].
  destruct (score_assets info) as [assets|]; [| discriminate].
  destruct (score_operating_cf info) as [operating_cf|]; [| discriminate].
  destruct (score_cash info) as [cash|]; [| discriminate].
  destruct (score_roe info) as [roe|]; [| discriminate].
  destruct (score_equity_ratio info) as [equity_ratio|]; [| discriminate].
  destruct (score_dividend info) as [dividend|]; [| discriminate].
  destruct (score_payout_ratio info) as [payout_ratio|]; [| discriminate].
  intros [= <- <-].
  exists revenue, eps, assets, operating_cf, cash, roe, equity_ratio,
    dividend, payout_ratio.
  repeat split.
Qed.

(** The breakdown, the total and the tiers together. *)
Lemma breakdown_items_shape info total details :
  score_info info = Ok (total, details) →
  ∃ items,
    details = zip criteria (Criterion <$> items) ∧
    total = foldr Z.add 0 (item_score <$> items) ∧
    Forall2 (λ '(full, half) it, tiered full half it) tiers items.
Proof.
  intros Hrun.
  destruct (score_info_inv info total details Hrun)
    as (r & e & a & o & c & ro & eq & dv & p &
        H1 & H2 & H3 & H4 & H5 & H6 & H7 & H8 & H9 & -> & ->).
  exists [r; e; a; o; c; ro; eq; dv; p].
  split; [reflexivity |]. split; [reflexivity |].
  unfold tiers.
  repeat match goal with
         | |- Forall2 _ (_ :: _) (_ :: _) => apply List.Forall2_cons
         | |- Forall2 _ [] [] => apply List.Forall2_nil
         end.
  - by apply (score_revenue_tiered info).
  - by apply (score_eps_tiered info).
  - apply (score_positive_tiered info "totalAssets" render_billions1);
      [apply render_billions1_not_NA | exact H3].
  - apply (score_positive_tiered info "operatingCashflow" render_billions1);
      [apply render_billions1_not_NA | exact H4].
  - apply (score_positive_tiered info "totalCash" render_billions1);
      [apply render_billions1_not_NA | exact H5].
  - by apply (score_roe_tiered info).
  - by apply (score_equity_ratio_tiered info).
  - apply (score_positive_tiered info "dividendRate" render_yen2);
      [apply render_yen2_not_NA | exact H8].
  - by apply (score_payout_ratio_tiered info).
Qed.

(** X1: whatever breakdown the engine returns, each of its nine items is in
    one of the tiers of its criterion: the full weight with the PASS label,
    the half-tier points (8 or 5, where the criterion has a PARTIAL tier)
    with the PARTIAL label, or 0 points with the FAIL label and value N/A;
    only the FAIL item carries N/A. *)
Theorem breakdown_items_tiered
    (info : gmap string pyval) (total : Z) (details : list (string * detail)) :
  score_info info = Ok (total, details) →
  ∃ items,
    details = zip criteria (Criterion <$> items) ∧
    Forall2 (λ '(full, half) it, tiered full half it) tiers items.
Proof.
  intros Hrun.
  destruct (breakdown_items_shape info total details Hrun)
    as (items & -> & _ & Htiers).
  by exists items.
Qed.

Lemma breakdown_items_tiered_witness :
  ∃ items,
    zip criteria
        (Criterion <$>
           [failed; failed; failed; failed; failed; failed; failed; failed;
            Item 10 status_pass (Percent1 (VFloat (FFin (Qmake 35 100))))]) =
      zip criteria (Criterion <$> items) ∧
    Forall2 (λ '(full, half) it, tiered full half it) tiers items.
Proof.
  apply (breakdown_items_tiered low_payout 10).
  vm_compute. reflexivity.
Defined.

(** ** Pie chart and cards *)



Lemma card_of_tiered name text full half it :
  tiered full half it →
  0 < full → (∀ h, half = Some h → 0 < h < full) →
  card_consistent
    (Card name (item_status it) (item_score it) full text (item_value it)
          (card_background (item_score it) full)).
Proof.
  intros Htier Hfull Hhalf. unfold card_consistent, card_background.
  cbn [card_status card_color card_achieved card_max_score card_value].
  destruct Htier as [(Hs & Hst & _) | [(Hh & Hst & _) | ->]].
  - left. rewrite Hs, Z.eqb_refl. done.
  - right; left. destruct (Hhalf _ (eq_sym Hh)) as [Hpos Hlt].
    destruct (Z.eqb_spec (item_score it) full) as [Heq|_]; [lia |].
    destruct (Z.ltb_spec 0 (item_score it)) as [_|Hle]; [done | lia].
  - right; right. cbn [item_score item_status item_value failed].
    destruct (Z.eqb_spec 0 full) as [Heq|_]; [lia |]. done.
Qed.

(** X3: for any breakdown the engine returns, the detailed view builds its
    nine cards without raising, with the maxima 15, 15, 10, ..., 10, and on
    every card the background colour, the status label and the points agree:
    green with PASS and full points, yellow with PARTIAL and points strictly
    between 0 and the maximum, red with FAIL, 0 points and N/A.  The points
    on the cards add up to the total score. *)
Theorem detail_cards_consistent
    (info : gmap string pyval) (total : Z) (details : list (string * detail)) :
  score_info info = Ok (total, details) →
  ∃ cards,
    detail_cards details = Ok cards ∧
    card_max_score <$> cards = weights ∧
    Forall card_consistent cards ∧
    foldr Z.add 0 (card_achieved <$> cards) = total.
Proof.
  intros Hrun.
  destruct (breakdown_items_shape info total details Hrun)
    as (items & -> & -> & Htiers).
  unfold tiers in Htiers.
  repeat match goal with
         | H : Forall2 _ (_ :: _) _ |- _ =>
           apply Forall2_cons_inv_l in H as (? & ? & ? & H & ->)
         | H : Forall2 _ [] _ |- _ => apply Forall2_nil_inv_l in H as ->
         end.
  eexists. split; [reflexivity |]. split; [reflexivity |].
  split; [| reflexivity].
  repeat match goal with
         | |- Forall _ (_ :: _) => apply List.Forall_cons
         | |- Forall _ [] => apply List.Forall_nil
         end;
    (eapply card_of_tiered; [eassumption | lia |];
     intros h [= <-]; lia).
Qed.

Lemma detail_cards_consistent_witness :
  ∃ cards,
    detail_cards
      (zip criteria
         (Criterion <$>
            [failed; failed; failed; failed; failed; failed; failed; failed;
             Item 10 status_pass (Percent1 (VFloat (FFin (Qmake 35 100))))])) =
      Ok cards ∧
    card_max_score <$> cards = weights ∧
    Forall card_consistent cards ∧
    foldr Z.add 0 (card_achieved <$> cards) = 10.
Proof.
  apply (detail_cards_consistent low_payout 10).
  vm_compute. reflexivity.
Defined.

(** X4: when the engine falls back (no info, or an empty info mapping) the
    score is 50, yet the pie chart has no slice and each of the nine cards
    is a red FAIL card with 0 points and N/A: the note entry is skipped by
    the chart and no criterion key is found by the cards. *)
Theorem fallback_views (data : option stock_data) :
  scored_info data = None →
  ∃ cards,
    calculate_comprehensive_score data = Ok (50, fallback_details) ∧
    create_score_pie_chart fallback_details = Ok (Pie [] [] []) ∧
    detail_cards fallback_details = Ok cards ∧
    length cards = 9%nat ∧
    Forall (λ c, card_status c = status_fail ∧ card_achieved c = 0 ∧
                 card_value c = NA ∧ card_color c = "#f8d7da") cards.
Proof.
  intros Hnone. eexists. split.
  - unfold scored_info, calculate_comprehensive_score in *.
    destruct data as [d|]; [| reflexivity].
    destruct (data_info d) as [info|]; [| reflexivity].
    by destruct (decide (info = ∅)).
  - split; [reflexivity |]. split; [reflexivity |]. split; [reflexivity |].
    repeat constructor.
Qed.

Lemma fallback_views_witness :
  calculate_comprehensive_score (bundle ∅) = Ok (50, fallback_details).
Proof.
  destruct (fallback_views (bundle ∅)) as (cards & Hrun & _);
    [reflexivity | exact Hrun].
Defined.

(** X5: the colour of the gauge bar and the comment under the charts cut
    the scores at the same points: the bar is red exactly when the comment
    is the caution, amber exactly when it is the warning, green exactly when
    it is one of the two favourable comments; and the most favourable
    comment is shown exactly from the threshold line of the gauge upward. *)
Theorem gauge_agrees_with_verdict (score : Z) :
  (gauge_color score = "#ff4444" ↔ verdict_of score = Caution) ∧
  (gauge_color score = "#ffaa00" ↔ verdict_of score = Fair) ∧
  (gauge_color score = "#00cc66" ↔
     verdict_of score = Good ∨ verdict_of score = Excellent) ∧
  (verdict_of score = Excellent ↔ gauge_threshold ≤ score).
Proof.
  unfold gauge_color, verdict_of, gauge_threshold.
  destruct (Z.ltb_spec score 40), (Z.ltb_spec score 60),
    (Z.leb_spec 80 score), (Z.leb_spec 60 score), (Z.leb_spec 40 score);
    try lia; repeat split; intros; try done; try lia; intuition discriminate.
Qed.

(** ** Header metrics *)

(** X6: with none of the four header keys in the info mapping (as in the
    empty mapping left by a failed info query) the header renders without
    raising: a market capitalisation of 0 in the hundred-millions format
    and N/A for the three ratios. *)
Theorem header_metrics_missing (info : gmap string pyval) :
  info !! "marketCap" = None → info !! "trailingPE" = None →
  info !! "priceToBook" = None → info !! "dividendYield" = None →
  header_metrics info =
    Ok (HundredMillions2 (VInt 0), MetricNA, MetricNA, MetricNA).
Proof.
  intros H1 H2 H3 H4.
  unfold header_metrics, market_cap_metric, per_metric, pbr_metric,
    dividend_yield_metric, info_get_or_0.
  rewrite H1, H2, H3, H4. reflexivity.
Qed.

Lemma header_metrics_missing_witness :
  header_metrics ∅ =
    Ok (HundredMillions2 (VInt 0), MetricNA, MetricNA, MetricNA).
Proof. apply header_metrics_missing; apply lookup_empty. Defined.

(** X7: a market capitalisation that is present but not a number (null or
    a string) makes the header raise [TypeError] at the comparison with
    1e12, whatever else the mapping holds; the default of 0 only covers a
    missing key. *)
Theorem header_metrics_non_numeric_market_cap
    (info : gmap string pyval) (v : pyval) :
  info !! "marketCap" = Some v → number v = None →
  header_metrics info = Raise TypeError.
Proof.
  intros Hv Hnum.
  unfold header_metrics, market_cap_metric, info_get_or_0.
  rewrite Hv. destruct v; try discriminate; reflexivity.
Qed.

Lemma header_metrics_non_numeric_market_cap_witness :
  header_metrics null_market_cap = Raise TypeError.
Proof.
  apply (header_metrics_non_numeric_market_cap null_market_cap VNone);
    reflexivity.
Defined.

(** ** Sidebar and stores *)

Lemma reverse_last_n {A} n (l : list A) :
  reverse (last_n n l) = take n (reverse l).
Proof. unfold last_n. by rewrite take_reverse. Qed.

(** X8: the sidebar lists the newest records first, five at most; once an
    analysis is saved, its record heads the list, followed by the four
    newest records of the log as it was before. *)
Theorem sidebar_newest_first (fs : files) (a : analysis) :
  (∀ history, sidebar_recent history = take 5 (reverse history)) ∧
  sidebar_recent (load_history (save fs a)) =
    entry_of a :: take 4 (reverse (load_history fs)).
Proof.
  split; [intros history; apply reverse_last_n |].
  unfold sidebar_recent.
  rewrite reverse_last_n, load_history_save, reverse_last_n, take_take.
  by rewrite reverse_snoc.
Qed.

Lemma load_history_save_last fs a :
  last (load_history (save fs a)) = Some (entry_of a).
Proof.
  rewrite load_history_save. unfold last_n. rewrite length_app. cbn [length].
  rewrite drop_app_le by lia. apply last_snoc.
Qed.

Lemma update_monthly_ranking_perm e month fs :
  load_monthly_ranking month (update_monthly_ranking e month fs) ≡ₚ
    (filter (λ r, stock_code r ≠ stock_code e)
            (load_monthly_ranking month fs) ++ [e])%list.
Proof.
  rewrite update_monthly_ranking_bucket. apply sort_by_score_desc_perm.
Qed.

(** X9: an append to a log of fewer than 100 records drops nothing; an
    append to a log of exactly 100 drops exactly its oldest record; either
    way the new record is the last of the log and the records kept stay in
    their order. *)
Theorem save_history_drops_oldest (fs : files) (a : analysis) :
  ((length (load_history fs) < 100)%nat →
   load_history (save fs a) = (load_history fs ++ [entry_of a])%list) ∧
  (length (load_history fs) = 100%nat →
   load_history (save fs a) = (drop 1 (load_history fs) ++ [entry_of a])%list) ∧
  last (load_history (save fs a)) = Some (entry_of a).
Proof.
  rewrite load_history_save. unfold last_n. rewrite length_app. cbn [length].
  split; [| split].
  - intros Hlt.
    by replace (length (load_history fs) + 1 - 100)%nat with 0%nat by lia.
  - intros Hfull. rewrite Hfull. cbn [Nat.add Nat.sub].
    rewrite drop_app_le by lia. reflexivity.
  - rewrite drop_app_le by lia. apply last_snoc.
Qed.

Lemma save_history_drops_oldest_witness :
  load_history (save (Files None None) (sequential 0)) =
    [entry_of (sequential 0)].
Proof.
  destruct (save_history_drops_oldest (Files None None) (sequential 0))
    as (Hshort & _ & _).
  rewrite Hshort; [reflexivity | cbn; lia].
Defined.

(** X10: a ranking update loses no entry of another ticker: the bucket of
    the month afterwards is a rearrangement of the entries of the other
    tickers and the new entry, so it holds the new entry, every old entry
    of another ticker, and at most one entry more than before. *)
Theorem ranking_update_keeps_others
    (fs : files) (e : entry) (month : string) :
  let before := load_monthly_ranking month fs in
  let after := load_monthly_ranking month (update_monthly_ranking e month fs) in
  after ≡ₚ (filter (λ r, stock_code r ≠ stock_code e) before ++ [e])%list ∧
  e ∈ after ∧
  (∀ r, r ∈ before → stock_code r ≠ stock_code e → r ∈ after) ∧
  (length after ≤ length before + 1)%nat.
Proof.
  intros before after.
  assert (Hperm : after ≡ₚ
            (filter (λ r, stock_code r ≠ stock_code e) before ++ [e])%list).
  { apply update_monthly_ranking_perm. }
  split; [exact Hperm |]. split; [| split].
  - rewrite Hperm. set_solver.
  - intros r Hr Hne. rewrite Hperm.
    apply elem_of_app. left. by apply list_elem_of_filter.
  - rewrite Hperm, length_app. cbn [length].
    pose proof (length_filter (λ r, stock_code r ≠ stock_code e) before).
    lia.
Qed.

(** X11: after a ranking update the bucket of the month is not empty and
    its first entry has the highest score of the bucket. *)
Theorem ranking_head_is_best (fs : files) (e : entry) (month : string) :
  ∃ best rest,
    load_monthly_ranking month (update_monthly_ranking e month fs) =
      best :: rest ∧
    Forall (λ r, score r ≤ score best) (best :: rest).
Proof.
  pose proof (sort_by_score_desc_sorted
    (filter (λ r, stock_code r ≠ stock_code e)
            (load_monthly_ranking month fs) ++ [e])) as Hsorted.
  pose proof (sort_by_score_desc_perm
    (filter (λ r, stock_code r ≠ stock_code e)
            (load_monthly_ranking month fs) ++ [e])) as Hperm.
  rewrite update_monthly_ranking_bucket.
  destruct (sort_by_score_desc _) as [|best rest].
  - apply Permutation_length in Hperm. rewrite length_app in Hperm.
    cbn in Hperm. lia.
  - exists best, rest. split; [reflexivity |].
    apply StronglySorted_cons in Hsorted as [Hbest _].
    constructor; [lia | exact Hbest].
Qed.

(** X12: saving an analysis files its record in both stores: it is the
    last record of the history and an entry of the ranking bucket of the
    month read at the update (whatever date the record itself carries);
    the ranking update leaves the history as written, and the buckets of
    the other months as they were. *)
Theorem save_history_files_both (fs : files) (a : analysis) :
  last (load_history (save fs a)) = Some (entry_of a) ∧
  entry_of a ∈ load_monthly_ranking (an_month a) (save fs a) ∧
  (∀ e month, load_history (update_monthly_ranking e month fs) =
              load_history fs) ∧
  (∀ k, k ≠ an_month a →
        load_monthly_ranking k (save fs a) = load_monthly_ranking k fs).
Proof.
  split; [apply load_history_save_last |]. split; [| split].
  - unfold save, save_history. rewrite update_monthly_ranking_perm.
    apply elem_of_app. right. apply list_elem_of_singleton. reflexivity.
  - reflexivity.
  - intros k Hne. unfold save, save_history.
    rewrite !load_monthly_ranking_lookup.
    by rewrite update_monthly_ranking_other.
Qed.

(** ** More on the fetch loop *)

(** Case analysis on everything the provider can answer in three attempts. *)
Ltac fetch_cases p :=
  unfold fetch_stock_data; cbn [seq max_retries fetch_loop];
  unfold fetch_attempt;
  repeat match goal with
         | |- context [reply_history p ?n] =>
           destruct (reply_history p n) as [?msg|[|?b ?h]]
         | |- context [is_rate_limit ?m] => destruct (is_rate_limit m)
         | |- context [reply_info p ?n] => destruct (reply_info p n)
         | _ => progress cbn [Nat.ltb Nat.leb Nat.sub Nat.add Nat.mul
                              retry_delay max_retries fst snd app]
         end.

(** X13: whatever the provider answers, one fetch queries the price
    history at least once and at most three times, queries the info at most
    once, and spends at most 10 seconds in sleeps. *)
Theorem fetch_is_bounded (p : provider) (code : string) :
  let log := (fetch_stock_data p code).2 in
  (1 ≤ attempts_made log ≤ 3)%nat ∧
  (info_queries log ≤ 1)%nat ∧
  (seconds_slept log ≤ 10)%nat.
Proof.
  fetch_cases p; cbn; lia.
Qed.

(** X14: the info is queried exactly when the fetch succeeds: a bundle
    always comes with a non-empty price history, an info mapping (possibly
    empty) and one info query in the log, and a failed fetch has made no
    info query. *)
Theorem fetch_success_shape (p : provider) (code : string) :
  match fetch_stock_data p code with
  | (Some d, log) =>
    data_history d ≠ [] ∧ is_Some (data_info d) ∧
    info_queries log = 1%nat ∧ last log = Some (QueryInfo (code ++ ".T"))
  | (None, log) => info_queries log = 0%nat
  end.
Proof.
  fetch_cases p; cbn; try reflexivity; repeat split; try done; by eexists.
Qed.

(** X15: when the first two history queries raise errors with the
    rate-limit signature and the third returns a price history, the fetch
    succeeds on the third attempt after two waits that grow with the
    attempt, 2 then 4 seconds, each announced by a warning. *)
Theorem rate_limit_backoff_escalates
    (p : provider) (code m0 m1 : string) (b : bar) (h : list bar) :
  reply_history p 0 = HistoryRaises m0 → is_rate_limit m0 = true →
  reply_history p 1 = HistoryRaises m1 → is_rate_limit m1 = true →
  reply_history p 2 = HistoryReturns (b :: h) →
  ∃ d,
    fetch_stock_data p code =
      (Some d,
       [Sleep 1; QueryHistory (code ++ ".T");
        StWarning (RateLimitWait 2 1 3); Sleep 2;
        Sleep 1; QueryHistory (code ++ ".T");
        StWarning (RateLimitWait 4 2 3); Sleep 4;
        Sleep 1; QueryHistory (code ++ ".T"); Sleep 1;
        QueryInfo (code ++ ".T")]) ∧
    data_history d = b :: h.
Proof.
  intros H0 Hr0 H1 Hr1 H2.
  unfold fetch_stock_data. cbn [seq max_retries fetch_loop].
  unfold fetch_attempt. rewrite H0, Hr0, H1, Hr1, H2.
  destruct (reply_info p 2); eexists; split; reflexivity.
Qed.

Lemma rate_limit_backoff_escalates_witness :
  ∃ d,
    fetch_stock_data throttled_twice "7203" =
      (Some d,
       [Sleep 1; QueryHistory "7203.T"; StWarning (RateLimitWait 2 1 3);
        Sleep 2;
        Sleep 1; QueryHistory "7203.T"; StWarning (RateLimitWait 4 2 3);
        Sleep 4;
        Sleep 1; QueryHistory "7203.T"; Sleep 1; QueryInfo "7203.T"]) ∧
    data_history d = one_bar.
Proof.
  apply (rate_limit_backoff_escalates throttled_twice "7203"
           "429 Too Many Requests" "429 Too Many Requests");
    reflexivity.
Defined.

(** X16: when every history query raises an error with the rate-limit
    signature, the fetch gives up after three attempts and two waits of 2
    and 4 seconds, and only then shows the rate-limit error. *)
Theorem rate_limit_exhausted (p : provider) (code : string) :
  (∀ attempt, ∃ error_msg,
      reply_history p attempt = HistoryRaises error_msg ∧
      is_rate_limit error_msg = true) →
  fetch_stock_data p code =
    (None,
     [Sleep 1; QueryHistory (code ++ ".T");
      StWarning (RateLimitWait 2 1 3); Sleep 2;
      Sleep 1; QueryHistory (code ++ ".T");
      StWarning (RateLimitWait 4 2 3); Sleep 4;
      Sleep 1; QueryHistory (code ++ ".T"); StError RateLimited]).
Proof.
  intros Hraise.
  unfold fetch_stock_data, fetch_loop, fetch_attempt. cbn [seq max_retries].
  destruct (Hraise 0%nat) as (m0 & -> & ->).
  destruct (Hraise 1%nat) as (m1 & -> & ->).
  destruct (Hraise 2%nat) as (m2 & -> & ->).
  reflexivity.
Qed.

Lemma rate_limit_exhausted_witness :
  fetch_stock_data always_throttled "7203" =
    (None,
     [Sleep 1; QueryHistory "7203.T"; StWarning (RateLimitWait 2 1 3); Sleep 2;
      Sleep 1; QueryHistory "7203.T"; StWarning (RateLimitWait 4 2 3); Sleep 4;
      Sleep 1; QueryHistory "7203.T"; StError RateLimited]).
Proof.
  apply (rate_limit_exhausted always_throttled "7203").
  intros attempt. exists "Rate limit exceeded". split; reflexivity.
Defined.

(** X17: a failing info query does not fail the fetch: with a price
    history on the first attempt, the fetch returns it with an empty info
    mapping and the synthetic company name, and the engine then gives the
    neutral score 50 with the note. *)
Theorem info_failure_degrades
    (p : provider) (code : string) (b : bar) (h : list bar) :
  reply_history p 0 = HistoryReturns (b :: h) →
  reply_info p 0 = InfoRaises →
  fetch_stock_data p code =
    (Some (StockData (synthetic_name code) (Some ∅) (b :: h)),
     [Sleep 1; QueryHistory (code ++ ".T"); Sleep 1;
      QueryInfo (code ++ ".T")]) ∧
  calculate_comprehensive_score (fetch_stock_data p code).1 =
    Ok (50, fallback_details).
Proof.
  intros Hhist Hinfo.
  assert (Hfetch : fetch_stock_data p code =
    (Some (StockData (synthetic_name code) (Some ∅) (b :: h)),
     [Sleep 1; QueryHistory (code ++ ".T"); Sleep 1;
      QueryInfo (code ++ ".T")])).
  { unfold fetch_stock_data. cbn [seq max_retries fetch_loop].
    unfold fetch_attempt. by rewrite Hhist, Hinfo. }
  split; [exact Hfetch |]. rewrite Hfetch. reflexivity.
Qed.

Lemma info_failure_degrades_witness :
  calculate_comprehensive_score (fetch_stock_data no_info "7203").1 =
    Ok (50, fallback_details).
Proof.
  apply (info_failure_degrades no_info "7203"
           (Bar "2024-05-01" (Qmake 100 1) (Qmake 110 1) (Qmake 95 1)
                (Qmake 105 1)) []);
    reflexivity.
Defined.

(** ** The analysis tab *)

Lemma tiered_range full half it :
  tiered full half it → 0 ≤ full →
  (∀ h, half = Some h → 0 ≤ h ≤ full) →
  0 ≤ item_score it ≤ full.
Proof.
  intros [(-> & _) | [(Hh & _) | ->]] Hfull Hhalf; [lia | | simpl; lia].
  by apply Hhalf.
Qed.

(** Whatever total the engine returns lies between 0 and 100. *)
Lemma calculate_total_range data total details :
  calculate_comprehensive_score data = Ok (total, details) →
  0 ≤ total ≤ 100.
Proof.
  unfold calculate_comprehensive_score.
  destruct data as [d|]; [| intros [= <- _]; lia].
  destruct (data_info d) as [info|]; [| intros [= <- _]; lia].
  destruct (decide (info = ∅)); [intros [= <- _]; lia |].
  intros (items & _ & -> & Htiers)%breakdown_items_shape.
  unfold tiers in Htiers.
  repeat match goal with
         | H : Forall2 _ (_ :: _) _ |- _ =>
           apply Forall2_cons_inv_l in H as (? & ? & ? & H & ->)
         | H : Forall2 _ [] _ |- _ => apply Forall2_nil_inv_l in H as ->
         end.
  repeat match goal with
         | H : tiered ?full ?half ?it |- _ =>
           apply tiered_range in H; [| lia | intros ? [= <-]; lia]
         end.
  cbn. lia.
Qed.

(** X18: the analysis tab writes to the stores only after the fetch has
    returned a bundle and the engine a score, and then it writes exactly
    what [save_history] writes for that score; in every other run (nothing
    to analyse, a failed fetch, an exception in the engine) both stores are
    left as they were.  With the button not pressed or an empty code the
    provider is not queried at all. *)
Theorem tab1_writes_only_after_scoring
    (p : provider) (analyze_button : bool)
    (code now month : string) (fs : files) :
  let run := tab1 p analyze_button code now month fs in
  ((run.1.1 = fs ∧
    (run.2 = Prompt ∨ run.2 = MissingCode ∨ run.2 = FetchFailed ∨
     ∃ e, run.2 = Uncaught (Builtin e))) ∨
   (∃ d score details,
      (fetch_stock_data p code).1 = Some d ∧
      calculate_comprehensive_score (Some d) = Ok (score, details) ∧
      run.1.1 = save_history code (data_company_name d) score details
                             now month fs)) ∧
  (analyze_button && negb (String.eqb code "") = false →
   run.1.2 = [] ∧ run.1.1 = fs).
Proof.
  unfold tab1.
  destruct (analyze_button && negb (String.eqb code "")) eqn:Hgo.
  - split; [| discriminate].
    destruct (fetch_stock_data p code) as [[d|] log]; cbn [fst snd].
    + destruct (calculate_comprehensive_score (Some d))
        as [[score details]|e] eqn:Hscore; cbn [fst snd].
      * right. by exists d, score, details.
      * left. split; [reflexivity |]. do 3 right. by exists e.
    + left. split; [reflexivity |]. tauto.
  - split; [| intros _];
      destruct (negb (negb (String.eqb code "")) && analyze_button);
      cbn [fst snd]; try done; left; tauto.
Qed.

Lemma tab1_writes_only_after_scoring_witness :
  (tab1 unknown_ticker true "" "2024-05-01 09:00:00" "2024-05"
        (Files None None)).1.2 = [] ∧
  (tab1 unknown_ticker true "" "2024-05-01 09:00:00" "2024-05"
        (Files None None)).1.1 = Files None None.
Proof.
  apply (tab1_writes_only_after_scoring unknown_ticker true "").
  reflexivity.
Defined.

(** X19: the record is saved before the page is drawn: when the fetched
    info holds a market capitalisation that is not a number (null or a
    string) and the engine returns a score, the run ends with [TypeError]
    in the header, yet both stores already hold the new record. *)
Theorem tab1_saves_before_header_fails
    (p : provider) (code now month : string) (fs : files)
    (d : stock_data) (log : list event) (info : gmap string pyval)
    (v : pyval) (score : Z) (details : list (string * detail)) :
  String.eqb code "" = false →
  fetch_stock_data p code = (Some d, log) →
  data_info d = Some info →
  info !! "marketCap" = Some v → number v = None →
  calculate_comprehensive_score (Some d) = Ok (score, details) →
  tab1 p true code now month fs =
    (save_history code (data_company_name d) score details now month fs,
     log, Uncaught (Builtin TypeError)).
Proof.
  intros Hcode Hfetch Hinfo Hcap Hnum Hscore.
  unfold tab1. rewrite Hcode, Hfetch, Hscore. cbn [andb negb].
  unfold render_report. rewrite Hinfo.
  unfold header_metrics, market_cap_metric, info_get_or_0.
  rewrite Hcap. destruct v; try discriminate; reflexivity.
Qed.

Lemma tab1_saves_before_header_fails_witness :
  ∃ fs' log,
    tab1 null_cap_provider true "7203" "2024-05-01 09:00:00" "2024-05"
         (Files None None) = (fs', log, Uncaught (Builtin TypeError)) ∧
    length (load_history fs') = 1%nat.
Proof.
  eexists _, _. split.
  - apply (tab1_saves_before_header_fails null_cap_provider "7203" _ _ _
             (StockData (synthetic_name "7203") (Some null_market_cap) one_bar)
             _ null_market_cap VNone 0);
      [reflexivity | reflexivity | reflexivity | reflexivity | reflexivity |].
    vm_compute. reflexivity.
  - reflexivity.
Defined.

(** X20: when the tab shows a report, its score lies between 0 and 100 and
    carries the comment and gauge colour of that score, the record with
    that score, the code and the company name is the last of the history
    and an entry of the month's ranking, and the pie chart either adds up to
    the score or is the empty chart of the fallback score 50. *)
Theorem tab1_report_consistent
    (p : provider) (analyze_button : bool) (code now month : string)
    (fs fs' : files) (log : list event) (r : report) :
  tab1 p analyze_button code now month fs = (fs', log, Shown r) →
  0 ≤ report_score r ≤ 100 ∧
  report_verdict r = verdict_of (report_score r) ∧
  report_gauge_color r = gauge_color (report_score r) ∧
  (∃ details,
     let e := Entry code (report_company_name r) (report_score r) details now in
     last (load_history fs') = Some e ∧
     e ∈ load_monthly_ranking month fs') ∧
  (foldr Z.add 0 (pie_values (report_pie r)) = report_score r ∨
   report_score r = 50 ∧ report_pie r = Pie [] [] []).
Proof.
  unfold tab1.
  destruct (analyze_button && negb (String.eqb code "")).
  2: { destruct (negb (negb (String.eqb code "")) && analyze_button);
       discriminate. }
  destruct (fetch_stock_data p code) as [[d|] log0]; [| discriminate].
  destruct (calculate_comprehensive_score (Some d))
    as [[score details]|e] eqn:Hscore; [| discriminate].
  unfold render_report.
  destruct (data_info d) as [info|] eqn:Hinfo; [| discriminate].
  destruct (header_metrics info) as [metrics|]; [| discriminate].
  destruct (create_score_pie_chart details) as [chart|] eqn:Hpie;
    [| discriminate].
  destruct (detail_cards details) as [cards|]; [| discriminate].
  cbn [lift]. intros [= <- <- <-]. cbn [report_score report_verdict
    report_gauge_color report_company_name report_pie].
  split; [by eapply calculate_total_range |].
  split; [reflexivity |]. split; [reflexivity |]. split.
  - exists details. cbn zeta. split.
    + apply (load_history_save_last fs
               (Analysis code (data_company_name d) score details now month)).
    + unfold save_history. rewrite update_monthly_ranking_perm.
      apply elem_of_app. right. by apply list_elem_of_singleton.
  - unfold calculate_comprehensive_score in Hscore. rewrite Hinfo in Hscore.
    destruct (decide (info = ∅)).
    + right. injection Hscore as <- <-. cbn in Hpie.
      by injection Hpie as <-.
    + left.
      destruct (breakdown_items_shape info score details Hscore)
        as (items & -> & -> & Htiers).
      unfold tiers in Htiers.
      repeat match goal with
             | H : Forall2 _ (_ :: _) _ |- _ =>
               apply Forall2_cons_inv_l in H as (? & ? & ? & H & ->)
             | H : Forall2 _ [] _ |- _ => apply Forall2_nil_inv_l in H as ->
             end.
      cbn in Hpie. by injection Hpie as <-.
Qed.

Lemma tab1_report_consistent_witness :
  ∃ r fs' log,
    tab1 no_info true "7203" "2024-05-01 09:00:00" "2024-05"
         (Files None None) = (fs', log, Shown r) ∧
    report_score r = 50 ∧
    report_verdict r = verdict_of (report_score r).
Proof.
  eexists _, _, _. split; [reflexivity |]. split; [reflexivity |].
  eapply (tab1_report_consistent no_info true "7203" "2024-05-01 09:00:00"
            "2024-05" (Files None None)).
  reflexivity.
Defined.

(** ** More on the engine *)

(** Two mappings that read the same at the scored fields get the same
    result from every criterion. *)
Lemma score_info_ext info info' :
  Forall (λ '(key, _), info_get info key = info_get info' key) scored_fields →
  score_info info = score_info info'.
Proof.
  unfold scored_fields. rewrite !Forall_cons.
  intros (H1 & H2 & H3 & H4 & H5 & H6 & H7 & H8 & H9 & H10 & _).
  unfold score_info, score_revenue, score_eps, score_assets,
    score_operating_cf, score_cash, score_roe, score_equity_ratio,
    score_dividend, score_payout_ratio, score_positive.
  by rewrite H1, H2, H3, H4, H5, H6, H7, H8, H9, H10.
Qed.

(** X21: the score depends on the ten scored fields only, read with
    [info.get(key, None)]: two non-empty info mappings that agree on these
    reads (other keys may differ, and a null field reads as a missing one)
    get the same total and the same breakdown. *)
Theorem score_depends_on_scored_fields
    (d d' : stock_data) (info info' : gmap string pyval) :
  data_info d = Some info → data_info d' = Some info' →
  info ≠ ∅ → info' ≠ ∅ →
  Forall (λ '(key, _), info_get info key = info_get info' key) scored_fields →
  calculate_comprehensive_score (Some d) =
  calculate_comprehensive_score (Some d').
Proof.
  intros Hd Hd' Hne Hne' Hsame.
  rewrite (calculate_nonempty info d Hd Hne).
  rewrite (calculate_nonempty info' d' Hd' Hne').
  by apply score_info_ext.
Qed.

Lemma score_depends_on_scored_fields_witness :
  calculate_comprehensive_score (bundle low_payout) =
  calculate_comprehensive_score
    (bundle (<["longName" := VStr "Toyota Motor"]>
             (<["revenueGrowth" := VNone]> low_payout))).
Proof.
  apply (score_depends_on_scored_fields _ _ low_payout
           (<["longName" := VStr "Toyota Motor"]>
            (<["revenueGrowth" := VNone]> low_payout)));
    [reflexivity | reflexivity | apply insert_non_empty
    | apply insert_non_empty |].
  unfold scored_fields. repeat constructor.
Defined.

(** X22: a non-empty info mapping in which every scored field is missing
    or null does not get the neutral 50 of the empty mapping: all nine
    criteria fail and the total is 0. *)
Theorem unscored_info_scores_zero
    (d : stock_data) (info : gmap string pyval) :
  data_info d = Some info → info ≠ ∅ →
  Forall (λ '(key, _), info_get info key = VNone) scored_fields →
  calculate_comprehensive_score (Some d) =
    Ok (0, zip criteria (Criterion <$> replicate 9 failed)).
Proof.
  intros Hd Hne Hnone.
  rewrite (calculate_nonempty info d Hd Hne).
  revert Hnone. unfold scored_fields. rewrite !Forall_cons.
  intros (H1 & H2 & H3 & H4 & H5 & H6 & H7 & H8 & H9 & H10 & _).
  unfold score_info, score_revenue, score_eps, score_assets,
    score_operating_cf, score_cash, score_roe, score_equity_ratio,
    score_dividend, score_payout_ratio, score_positive.
  rewrite H1, H2, H4, H5, H6, H7, H8, H9, H10. reflexivity.
Qed.

Lemma unscored_info_scores_zero_witness :
  calculate_comprehensive_score (bundle only_name) =
    Ok (0, zip criteria (Criterion <$> replicate 9 failed)).
Proof.
  apply (unscored_info_scores_zero _ only_name);
    [reflexivity | apply insert_non_empty |].
  unfold scored_fields. repeat constructor.
Defined.

(** *** Order on the numbers *)

Lemma Qlt_bool_iff p q : Qlt_bool p q = true ↔ (p < q)%Q.
Proof.
  unfold Qlt_bool. rewrite negb_true_iff, <- not_true_iff_false, Qle_bool_iff.
  split; [apply Qnot_le_lt | apply Qlt_not_le].
Qed.

Lemma float_lt_le_trans a b c :
  float_ltb a b = true → float_leb b c = true → float_ltb a c = true.
Proof.
  destruct a as [|[]|p], b as [|[]|q], c as [|[]|r]; simpl;
    try discriminate; try reflexivity.
  rewrite !Qlt_bool_iff, Qle_bool_iff. apply Qlt_le_trans.
Qed.

Lemma positive_is_truthy v x :
  number v = Some x → float_ltb (FFin 0) x = true → truthy v = true.
Proof.
  destruct v as [|z|[| |q]|s]; simpl; try discriminate; intros [= <-];
    simpl; try reflexivity.
  - rewrite Qlt_bool_iff. unfold Qlt. simpl. intros Hlt.
    apply negb_true_iff, Z.eqb_neq. lia.
  - rewrite Qlt_bool_iff. intros Hlt.
    apply negb_true_iff, not_true_iff_false. intros Heq%Qeq_bool_iff.
    rewrite Heq in Hlt. by apply Qlt_irrefl in Hlt.
Qed.

Lemma above_5_percent_is_positive x :
  float_ltb f_0_05 x = true → float_ltb (FFin 0) x = true.
Proof.
  destruct x as [|[]|q]; simpl; try done.
  rewrite !Qlt_bool_iff. apply Qlt_trans. reflexivity.
Qed.

(** The points of the revenue criterion as a function of the growth. *)
Lemma score_revenue_points info x it :
  number (info_get info "revenueGrowth") = Some x →
  score_revenue info = Ok it →
  item_score it = revenue_points x.
Proof.
  intros Hnum. unfold score_revenue, revenue_points, and_then.
  pose proof (positive_is_truthy _ _ Hnum) as Htruthy.
  pose proof (above_5_percent_is_positive x) as Habove.
  assert (Hgt1 : py_gt (info_get info "revenueGrowth") (VFloat f_0_05) =
                 Ok (float_ltb f_0_05 x)).
  { unfold py_gt, py_lt. rewrite Hnum.
    by destruct (info_get info "revenueGrowth"). }
  assert (Hgt0 : py_gt (info_get info "revenueGrowth") (VInt 0) =
                 Ok (float_ltb (FFin 0) x)).
  { unfold py_gt, py_lt. rewrite Hnum.
    by destruct (info_get info "revenueGrowth"). }
  rewrite Hgt1, Hgt0.
  destruct (float_ltb (FFin 0) x) eqn:Hpos.
  - rewrite Htruthy by reflexivity. unfold mbind, exc_bind.
    destruct (float_ltb f_0_05 x);
      destruct (render_percent1 _); try discriminate; by intros [= <-].
  - destruct (float_ltb f_0_05 x); [by specialize (Habove eq_refl) |].
    unfold mbind, exc_bind.
    destruct (truthy _); by intros [= <-].
Qed.

Lemma revenue_points_mono x y :
  float_leb x y = true → revenue_points x ≤ revenue_points y.
Proof.
  intros Hle. unfold revenue_points.
  destruct (float_ltb f_0_05 x) eqn:H5.
  - by rewrite (float_lt_le_trans _ _ _ H5 Hle).
  - destruct (float_ltb (FFin 0) x) eqn:H0.
    + rewrite (float_lt_le_trans _ _ _ H0 Hle).
      destruct (float_ltb f_0_05 y); lia.
    + destruct (float_ltb f_0_05 y), (float_ltb (FFin 0) y); lia.
Qed.

Lemma info_get_insert_ne (info : gmap string pyval) key key' v :
  key ≠ key' → info_get (<[key := v]> info) key' = info_get info key'.
Proof. intros Hne. unfold info_get. by rewrite lookup_insert_ne. Qed.

Lemma info_get_insert_eq (info : gmap string pyval) key v :
  info_get (<[key := v]> info) key = v.
Proof. unfold info_get. by rewrite lookup_insert_eq. Qed.

(** X23: raising the revenue growth never lowers the total: on an info
    mapping the engine can render, replacing a numeric revenueGrowth by a
    number at least as large (everything else unchanged) gives a total at
    least as large. *)
Theorem revenue_growth_monotone
    (info : gmap string pyval) (v' : pyval) (x y : pyfloat) :
  renderable info →
  number (info_get info "revenueGrowth") = Some x →
  number v' = Some y → field_ok 100 v' = true →
  float_leb x y = true →
  ∃ total details total' details',
    score_info info = Ok (total, details) ∧
    score_info (<["revenueGrowth" := v']> info) = Ok (total', details') ∧
    total ≤ total'.
Proof.
  intros Hok Hx Hy Hv' Hle.
  set (info' := <["revenueGrowth" := v']> info).
  assert (Hother : ∀ key, key ≠ "revenueGrowth" →
                          info_get info' key = info_get info key).
  { intros key Hne. by apply info_get_insert_ne. }
  assert (Hok' : renderable info').
  { pose proof (renderable_fields info Hok) as Hfields.
    unfold renderable, scored_fields. cbn [forallb].
    unfold info' at 1. rewrite info_get_insert_eq, Hv'.
    rewrite !Hother by done.
    rewrite !andb_true_iff. tauto. }
  destruct (score_info_ok info Hok)
    as (r & e & a & o & c & ro & eq & dv & p &
        (R1 & _) & (R2 & _) & (R3 & _) & (R4 & _) & (R5 & _) & (R6 & _) &
        (R7 & _) & (R8 & _) & (R9 & _) & Hrun).
  destruct (score_info_ok info' Hok')
    as (r' & e' & a' & o' & c' & ro' & eq' & dv' & p' &
        (R1' & _) & (R2' & _) & (R3' & _) & (R4' & _) & (R5' & _) &
        (R6' & _) & (R7' & _) & (R8' & _) & (R9' & _) & Hrun').
  assert (Hr : item_score r ≤ item_score r').
  { rewrite (score_revenue_points info x r Hx R1).
    rewrite (score_revenue_points info' y r').
    - by apply revenue_points_mono.
    - unfold info'. by rewrite info_get_insert_eq.
    - exact R1'. }
  assert (E2 : score_eps info' = score_eps info)
    by (unfold score_eps; by rewrite !Hother).
  assert (E3 : score_assets info' = score_assets info)
    by (unfold score_assets, score_positive; by rewrite !Hother).
  assert (E4 : score_operating_cf info' = score_operating_cf info)
    by (unfold score_operating_cf, score_positive; by rewrite !Hother).
  assert (E5 : score_cash info' = score_cash info)
    by (unfold score_cash, score_positive; by rewrite !Hother).
  assert (E6 : score_roe info' = score_roe info)
    by (unfold score_roe; by rewrite !Hother).
  assert (E7 : score_equity_ratio info' = score_equity_ratio info)
    by (unfold score_equity_ratio; by rewrite !Hother).
  assert (E8 : score_dividend info' = score_dividend info)
    by (unfold score_dividend, score_positive; by rewrite !Hother).
  assert (E9 : score_payout_ratio info' = score_payout_ratio info)
    by (unfold score_payout_ratio; by rewrite !Hother).
  rewrite E2, R2 in R2'. rewrite E3, R3 in R3'. rewrite E4, R4 in R4'.
  rewrite E5, R5 in R5'. rewrite E6, R6 in R6'. rewrite E7, R7 in R7'.
  rewrite E8, R8 in R8'. rewrite E9, R9 in R9'.
  injection R2' as <-. injection R3' as <-. injection R4' as <-.
  injection R5' as <-. injection R6' as <-. injection R7' as <-.
  injection R8' as <-. injection R9' as <-.
  eexists _, _, _, _. split; [exact Hrun |]. split; [exact Hrun' |].
  cbn. lia.
Qed.

Lemma revenue_growth_monotone_witness :
  ∃ total details total' details',
    score_info (growth 3) = Ok (total, details) ∧
    score_info (<["revenueGrowth" := VFloat (FFin (Qmake 6 100))]> (growth 3)) =
      Ok (total', details') ∧
    total ≤ total'.
Proof.
  apply (revenue_growth_monotone (growth 3) _
           (FFin (Qmake 3 100)) (FFin (Qmake 6 100)));
    reflexivity.
Defined.

(** X24: a NaN field is present (it is truthy and not null) but fails
    every comparison.  A NaN revenueGrowth or returnOnEquity, and a NaN in
    the field of a positive-amount criterion (totalAssets,
    operatingCashflow, totalCash, dividendRate), send that criterion to
    FAIL.  A NaN trailingEps sends the EPS criterion to FAIL when
    forwardEps is null or a number; a NaN forwardEps beside a null or
    numeric trailingEps scores as a missing forwardEps does, so it never
    earns the PASS tier.  The two criteria whose second tier only asks for
    presence, debt-to-equity and payout ratio, award a NaN their PARTIAL 5
    points. *)
Theorem nan_field_tiers (info : gmap string pyval) :
  (info_get info "revenueGrowth" = VFloat FNaN →
   score_revenue info = Ok failed) ∧
  (info_get info "trailingEps" = VFloat FNaN →
   numeric_or_null (info_get info "forwardEps") = true →
   score_eps info = Ok failed) ∧
  (info_get info "forwardEps" = VFloat FNaN →
   numeric_or_null (info_get info "trailingEps") = true →
   score_eps info = score_eps (delete "forwardEps" info)) ∧
  (info_get info "totalAssets" = VFloat FNaN →
   score_assets info = Ok failed) ∧
  (info_get info "operatingCashflow" = VFloat FNaN →
   score_operating_cf info = Ok failed) ∧
  (info_get info "totalCash" = VFloat FNaN →
   score_cash info = Ok failed) ∧
  (info_get info "dividendRate" = VFloat FNaN →
   score_dividend info = Ok failed) ∧
  (info_get info "returnOnEquity" = VFloat FNaN →
   score_roe info = Ok failed) ∧
  (info_get info "debtToEquity" = VFloat FNaN →
   score_equity_ratio info =
     Ok (Item 5 status_partial (DebtEquity1 (VFloat FNaN)))) ∧
  (info_get info "payoutRatio" = VFloat FNaN →
   score_payout_ratio info =
     Ok (Item 5 status_partial (Percent1 (VFloat FNaN)))).
Proof.
  repeat split.
  - intros H. unfold score_revenue. by rewrite H.
  - intros H Hfwd. unfold score_eps, and_then. rewrite H.
    destruct (info_get info "forwardEps") as [|z|[| |q]|s];
      try discriminate; simpl; repeat (case_if; simpl); reflexivity.
  - intros H Heps. unfold score_eps, and_then, info_get.
    rewrite lookup_delete_eq, lookup_delete_ne by done.
    fold (info_get info "forwardEps") (info_get info "trailingEps").
    rewrite H.
    destruct (info_get info "trailingEps") as [|z|[|[]|q]|s];
      try discriminate; simpl; repeat (case_if; simpl);
      try reflexivity; discriminate.
  - intros H. unfold score_assets, score_positive. by rewrite H.
  - intros H. unfold score_operating_cf, score_positive. by rewrite H.
  - intros H. unfold score_cash, score_positive. by rewrite H.
  - intros H. unfold score_dividend, score_positive. by rewrite H.
  - intros H. unfold score_roe. by rewrite H.
  - intros H. unfold score_equity_ratio. by rewrite H.
  - intros H. unfold score_payout_ratio. by rewrite H.
Qed.

Lemma nan_field_tiers_witness :
  calculate_comprehensive_score (bundle nan_ratios) =
    Ok (10,
        zip criteria
          (Criterion <$>
             [failed; failed; failed; failed; failed; failed;
              Item 5 status_partial (DebtEquity1 (VFloat FNaN));
              failed;
              Item 5 status_partial (Percent1 (VFloat FNaN))])).
Proof.
  destruct (nan_field_tiers nan_ratios)
    as (H1 & H2 & _ & _ & _ & _ & _ & H8 & H9 & H10).
  unfold bundle, calculate_comprehensive_score. cbn [data_info].
  destruct (decide (nan_ratios = ∅)) as [Hempty|_].
  - exfalso. revert Hempty. apply insert_non_empty.
  - unfold score_info.
    rewrite (H1 eq_refl), (H2 eq_refl eq_refl), (H8 eq_refl), (H9 eq_refl),
      (H10 eq_refl).
    reflexivity.
Defined.
